(** * Book suggestion app: the fetch, clean and filter pipeline

    A shallow embedding of [Book_suggestion_App_Sreeja.py]:
    [fetch_books], the genre list of [MainWindow.init_ui], the two slots
    [MainWindow.apply_filter] and [MainWindow.suggest_random], and the
    start-up code under [__main__].

    Conventions of the model.
    - A Python [str] is a [string]; every [ascii] is read as the code point
      of the same number, so the model covers text whose code points are
      below 256.  The character classes of [str.isdigit], [str.strip] and of
      case-insensitive matching are the Unicode ones restricted to that
      range.
    - A Python [int] is a [Z].  pandas gives each numeric column a type
      when the frame is built (64-bit signed or unsigned integers, floats,
      or Python objects); a float holding an integer is written as that
      integer, and the cast of a float outside the 64-bit range is the one
      of x86-64, which gives the smallest 64-bit integer.
    - An exception is a value: [Raise e].  [Beyond] marks an input on which
      the libraries behave in a way this development does not describe.
    - The answer of the remote service and the draw of the random number
      generator are arguments of the functions that consume them. *)

From Stdlib Require Import Bool List ZArith Lia Ascii String.
From Stdlib Require Import Sorted Permutation OrderedTypeEx DecimalString.
From Stdlib Require DecimalPos.
Import ListNotations.

Set Implicit Arguments.

Local Open Scope string_scope.
Local Open Scope Z_scope.

(** ** Outcomes of a computation *)

Inductive exn : Type :=
| RuntimeError (msg : string)   (* [fetch_books], on a failed request *)
| KeyError       (* a column that the frame does not have *)
| ValueError     (* [int] on text that is not a decimal literal *)
| ReError.       (* [re.error]: the pattern does not compile *)

Inductive result (A : Type) : Type :=
| Ok (a : A)
| Raise (e : exn)
| Beyond.

Arguments Ok {A} a.
Arguments Raise {A} e.
Arguments Beyond {A}.

Definition bind {A B} (m : result A) (k : A -> result B) : result B :=
  match m with
  | Ok a => k a
  | Raise e => Raise e
  | Beyond => Beyond
  end.

Notation "x <- m ;; k" := (bind m (fun x => k))
  (at level 61, m at next level, right associativity).

Fixpoint mapM {A B} (f : A -> result B) (l : list A) : result (list B) :=
  match l with
  | [] => Ok []
  | a :: l' => b <- f a ;; bs <- mapM f l' ;; Ok (b :: bs)
  end.

(** ** Python strings *)

Module PyStr.

Definition code (c : ascii) : N := N_of_ascii c.

Definition between (lo hi : N) (c : ascii) : bool :=
  ((lo <=? code c) && (code c <=? hi))%N.

(** [str.isspace] on one character: TAB..CR, FS..US, space, NEL, NBSP. *)
Definition isspace (c : ascii) : bool :=
  between 9 13 c || between 28 32 c
  || (code c =? 133)%N || (code c =? 160)%N.

(** The decimal digits, the only characters [int] reads as digits. *)
Definition isdecimal (c : ascii) : bool := between 48 57 c.

(** [str.isdigit] on one character: the decimal digits and the
    superscripts U+00B2, U+00B3 and U+00B9. *)
Definition isdigit_char (c : ascii) : bool :=
  isdecimal c || (code c =? 178)%N || (code c =? 179)%N || (code c =? 185)%N.

Fixpoint all_chars (p : ascii -> bool) (s : string) : bool :=
  match s with
  | EmptyString => true
  | String c s' => p c && all_chars p s'
  end.

(** [s.isdigit()]: at least one character, and all of them digits. *)
Definition isdigit (s : string) : bool :=
  match s with
  | EmptyString => false
  | _ => all_chars isdigit_char s
  end.

(** Simple lower-case mapping: A-Z, and the Latin-1 capitals but the
    multiplication sign. *)
Definition tolower (c : ascii) : ascii :=
  if between 65 90 c || between 192 214 c || between 216 222 c
  then ascii_of_N (code c + 32) else c.

Definition is_empty (s : string) : bool :=
  match s with EmptyString => true | _ => false end.

Fixpoint lstrip (s : string) : string :=
  match s with
  | EmptyString => EmptyString
  | String c s' => if isspace c then lstrip s' else s
  end.

Fixpoint rstrip (s : string) : string :=
  match s with
  | EmptyString => EmptyString
  | String c s' =>
      let r := rstrip s' in
      if is_empty r && isspace c then EmptyString else String c r
  end.

(** [s.strip()] *)
Definition strip (s : string) : string := rstrip (lstrip s).

(** [s.split(sep)[0]] for a one-character separator. *)
Fixpoint split1_first (sep : ascii) (s : string) : string :=
  match s with
  | EmptyString => EmptyString
  | String c s' =>
      if Ascii.eqb c sep then EmptyString else String c (split1_first sep s')
  end.

(** [s.split(', ')[0]]: the text before the first comma followed by a
    space, all of [s] when there is none. *)
Fixpoint split_comma_space_first (s : string) : string :=
  match s with
  | EmptyString => EmptyString
  | String c s' =>
      if Ascii.eqb c "," && prefix " " s' then EmptyString
      else String c (split_comma_space_first s')
  end.

(** [sep.join(parts)] *)
Fixpoint join (sep : string) (parts : list string) : string :=
  match parts with
  | [] => EmptyString
  | [p] => p
  | p :: rest => p ++ sep ++ join sep rest
  end.

Definition digit_value (c : ascii) : Z := Z.of_N (code c) - 48.

(** The digits of a decimal literal, left to right.  [sep] tells that the
    previous character was not a digit (the start, or an underscore): an
    underscore or the end of the text is then refused. *)
Fixpoint int_digits (s : string) (acc : Z) (sep : bool) : option Z :=
  match s with
  | EmptyString => if sep then None else Some acc
  | String c s' =>
      if isdecimal c then int_digits s' (10 * acc + digit_value c) false
      else if Ascii.eqb c "_" then
        if sep then None else int_digits s' acc true
      else None
  end.

(** [int(s)] for a [str] argument, base 10: white space around, a sign,
    decimal digits, single underscores between digits.  The interpreter's
    cap on the length of a literal is a setting and is left out. *)
Definition int (s : string) : result Z :=
  let body :=
    match strip s with
    | String "+" t => int_digits t 0 true
    | String "-" t => option_map Z.opp (int_digits t 0 true)
    | t => int_digits t 0 true
    end in
  match body with
  | Some z => Ok z
  | None => Raise ValueError
  end.

(** [str(z)] for an integer. *)
Definition str_of_int (z : Z) : string := NilZero.string_of_int (Z.to_int z).

Definition newline : string := String (ascii_of_nat 10) EmptyString.

End PyStr.

(** ** Regular expressions: the fragment of [re] the genre filter meets

    [Series.str.contains(pat, case=False)] compiles [pat] with
    [re.IGNORECASE] and keeps the rows in which [search] finds a match.
    The fragment: literal characters, [.], groups, [|], the postfix
    operators [*], [+] and [?], and a backslash before a character that is
    neither an ASCII letter nor a digit.  Everything else ([[], [{], [^],
    [$], [(?], a backslash before a letter or a digit, two postfix
    operators in a row, [*] or [+] on an item that matches the empty text)
    is [Beyond]. *)

Module Re.

Inductive regex : Type :=
| Void                       (* matches nothing *)
| Eps                        (* the empty text *)
| Lit (c : ascii)            (* one character, case ignored *)
| Any                        (* [.]: any character but a newline *)
| Cat (r1 r2 : regex)
| Alt (r1 r2 : regex)
| Star (r : regex).

Fixpoint nullable (r : regex) : bool :=
  match r with
  | Void | Lit _ | Any => false
  | Eps | Star _ => true
  | Cat r1 r2 => nullable r1 && nullable r2
  | Alt r1 r2 => nullable r1 || nullable r2
  end.

(** *** Compiling a pattern *)

(** One pending alternation: the branches already closed by [|], latest
    first, and the items of the branch being read, latest first, each
    with a flag telling that it is a repetition. *)
Record frame : Type := { alts : list regex; items : list (regex * bool) }.

Definition empty_frame : frame := {| alts := []; items := [] |}.

Definition push (it : regex * bool) (f : frame) : frame :=
  {| alts := alts f; items := it :: items f |}.

Definition branch (its : list (regex * bool)) : regex :=
  fold_left (fun acc it => Cat (fst it) acc) its Eps.

Definition close (f : frame) : regex :=
  fold_left (fun acc a => Alt a acc) (alts f) (branch (items f)).

Inductive postfix : Type := PStar | PPlus | POpt.

Definition repeat_item (q : postfix) (f : frame) : result frame :=
  match items f with
  | [] => Raise ReError                       (* nothing to repeat *)
  | (_, true) :: _ => Beyond
  | (r, false) :: rest =>
      match q with
      | POpt => Ok {| alts := alts f; items := (Alt r Eps, true) :: rest |}
      | PStar =>
          if nullable r then Beyond
          else Ok {| alts := alts f; items := (Star r, true) :: rest |}
      | PPlus =>
          if nullable r then Beyond
          else Ok {| alts := alts f; items := (Cat r (Star r), true) :: rest |}
      end
  end.

Definition ascii_alnum (c : ascii) : bool :=
  PyStr.between 48 57 c || PyStr.between 65 90 c || PyStr.between 97 122 c.

(** The characters that are not read as themselves. *)
Definition special (c : ascii) : bool :=
  existsb (Ascii.eqb c)
    ["."; "\"; "["; "{"; "("; ")"; "*"; "+"; "?"; "^"; "$"; "|"]%char.

Fixpoint parse (p : list ascii) (cur : frame) (stack : list frame)
  : result regex :=
  match p with
  | [] =>
      match stack with
      | [] => Ok (close cur)
      | _ :: _ => Raise ReError               (* missing ) *)
      end
  | c :: p' =>
      if Ascii.eqb c "(" then
        match p' with
        | "?"%char :: _ => Beyond
        | _ => parse p' empty_frame (cur :: stack)
        end
      else if Ascii.eqb c ")" then
        match stack with
        | [] => Raise ReError                 (* unbalanced parenthesis *)
        | up :: stack' => parse p' (push (close cur, false) up) stack'
        end
      else if Ascii.eqb c "|" then
        parse p' {| alts := branch (items cur) :: alts cur; items := [] |}
              stack
      else if Ascii.eqb c "*" then
        match repeat_item PStar cur with
        | Ok f => parse p' f stack | Raise e => Raise e | Beyond => Beyond
        end
      else if Ascii.eqb c "+" then
        match repeat_item PPlus cur with
        | Ok f => parse p' f stack | Raise e => Raise e | Beyond => Beyond
        end
      else if Ascii.eqb c "?" then
        match repeat_item POpt cur with
        | Ok f => parse p' f stack | Raise e => Raise e | Beyond => Beyond
        end
      else if Ascii.eqb c "." then parse p' (push (Any, false) cur) stack
      else if Ascii.eqb c "\" then
        match p' with
        | [] => Raise ReError                 (* bad escape *)
        | d :: p'' =>
            if ascii_alnum d then Beyond
            else parse p'' (push (Lit d, false) cur) stack
        end
      else if special c then Beyond
      else parse p' (push (Lit c, false) cur) stack
  end.

(** [re.compile(pat, flags=re.IGNORECASE)] *)
Definition compile (pat : string) : result regex :=
  parse (list_ascii_of_string pat) empty_frame [].

(** *** Matching, by derivatives *)

(** A pattern character and a text character agree when their lower-case
    forms are equal. *)
Definition same_letter (p c : ascii) : bool :=
  Ascii.eqb (PyStr.tolower p) (PyStr.tolower c).

Definition is_newline (c : ascii) : bool := (PyStr.code c =? 10)%N.

Fixpoint deriv (c : ascii) (r : regex) : regex :=
  match r with
  | Void | Eps => Void
  | Lit p => if same_letter p c then Eps else Void
  | Any => if is_newline c then Void else Eps
  | Cat r1 r2 =>
      if nullable r1 then Alt (Cat (deriv c r1) r2) (deriv c r2)
      else Cat (deriv c r1) r2
  | Alt r1 r2 => Alt (deriv c r1) (deriv c r2)
  | Star r1 => Cat (deriv c r1) (Star r1)
  end.

(** Some prefix of [s] matches [r]. *)
Fixpoint match_here (r : regex) (s : list ascii) : bool :=
  nullable r ||
  match s with
  | [] => false
  | c :: s' => match_here (deriv c r) s'
  end.

(** Some part of [s] matches [r]. *)
Fixpoint search_list (r : regex) (s : list ascii) : bool :=
  match_here r s ||
  match s with
  | [] => false
  | _ :: s' => search_list r s'
  end.

(** [r.search(text) is not None] *)
Definition search (r : regex) (text : string) : bool :=
  search_list r (list_ascii_of_string text).

(** *** What a regular expression matches *)

Inductive matches : regex -> list ascii -> Prop :=
| m_eps : matches Eps []
| m_lit p c : same_letter p c = true -> matches (Lit p) [c]
| m_any c : is_newline c = false -> matches Any [c]
| m_cat r1 r2 s1 s2 :
    matches r1 s1 -> matches r2 s2 -> matches (Cat r1 r2) (s1 ++ s2)
| m_alt_l r1 r2 s : matches r1 s -> matches (Alt r1 r2) s
| m_alt_r r1 r2 s : matches r2 s -> matches (Alt r1 r2) s
| m_star_nil r : matches (Star r) []
| m_star_app r s1 s2 :
    matches r s1 -> matches (Star r) s2 -> matches (Star r) (s1 ++ s2).

End Re.

(** ** The answer of the remote service

    The body of a successful answer is a JSON object; [items] and every
    field of an item may be absent. *)

(** A number of the answer, or a cell of a numeric column before it is
    cleaned: [None] (a JSON [null]) or an [int]. *)
Inductive pyval : Type :=
| PyNone
| PyInt (z : Z).

Record VolumeInfo : Type := {
  title : option string;
  authors : option (list string);
  publishedDate : option string;
  categories : option (list string);
  ratingsCount : option pyval
}.

Record Item : Type := { volumeInfo : option VolumeInfo }.

Inductive Response : Type :=
| RequestException (reason : string)   (* no answer, or an error status *)
| Json (items : option (list Item)).

(** [d.get(k, default)] *)
Definition get {A} (field : option A) (default : A) : A :=
  match field with Some a => a | None => default end.

(** The items of an answer, none when the request failed or the body has
    no [items]. *)
Definition items_of (r : Response) : list Item :=
  match r with
  | Json data => get data []
  | RequestException _ => []
  end.

(** ** Rows and frames *)

(** A row of the five columns; [N] is what the two numeric columns hold:
    [pyval] in the frame built from the items, [Z] once they are cleaned. *)
Record Row (N : Type) : Type := {
  Title : string;
  Authors : string;
  Genre : string;
  Publication_Year : N;
  Ratings : N
}.

(** A book of the Dataset: a row whose numbers are integers. *)
Abbreviation Book := (Row Z) (only parsing).

(** A frame made from an empty list of rows has no columns at all. *)
Inductive DataFrame (N : Type) : Type :=
| NoColumns
| Frame (rows : list (Row N)).

Arguments NoColumns {N}.

Definition DataFrame_of {N} (books : list (Row N)) : DataFrame N :=
  match books with
  | [] => NoColumns
  | _ :: _ => Frame books
  end.

Definition key {N} (b : Row N) : string * string := (Title b, Authors b).

Definition key_eqb (k1 k2 : string * string) : bool :=
  String.eqb (fst k1) (fst k2) && String.eqb (snd k1) (snd k2).

(** The rows of [rows] whose key is neither in [seen] nor carried by an
    earlier row. *)
Fixpoint drop_seen {N} (seen : list (string * string)) (rows : list (Row N))
  : list (Row N) :=
  match rows with
  | [] => []
  | b :: rows' =>
      if existsb (key_eqb (key b)) seen then drop_seen seen rows'
      else b :: drop_seen (key b :: seen) rows'
  end.

(** [df.drop_duplicates(subset=['Title','Authors'], inplace=True)]: an
    empty frame is returned as it is, before the columns are looked up. *)
Definition drop_duplicates {N} (df : DataFrame N) : DataFrame N :=
  match df with
  | NoColumns => NoColumns
  | Frame rows => Frame (drop_seen [] rows)
  end.

(** [df['Title'] != 'Unknown Title'], row by row. *)
Definition known_title {N} (b : Row N) : bool :=
  negb (Title b =? "Unknown Title")%string.

(** [df[df['Title'] != 'Unknown Title']] *)
Definition drop_unknown_title {N} (df : DataFrame N) : result (DataFrame N) :=
  match df with
  | NoColumns => Raise KeyError
  | Frame rows => Ok (Frame (filter known_title rows))
  end.

(** [pd.concat([df1, df2], ignore_index=True)] *)
Definition concat2 {N} (df1 df2 : DataFrame N) : DataFrame N :=
  match df1, df2 with
  | NoColumns, df | df, NoColumns => df
  | Frame r1, Frame r2 => Frame (r1 ++ r2)
  end.

(** ** The numeric columns

    [pd.DataFrame(books)] gives each column a type from its values, in
    their order; [pd.to_numeric] keeps a numeric type and chooses one for a
    column of objects from the values that are left; [fillna(0)] fills the
    missing values of a float column and [astype(int)] casts to 64-bit
    signed integers. *)

Definition INT64_MIN : Z := - 2 ^ 63.
Definition INT64_MAX : Z := 2 ^ 63 - 1.
Definition UINT64_MAX : Z := 2 ^ 64 - 1.

Definition fits_int64 (z : Z) : bool := (INT64_MIN <=? z) && (z <=? INT64_MAX).

Inductive dtype : Type := int64 | uint64 | float64 | object.

(** [float(v)] for an [int]: the nearest number with 53 significant bits,
    ties to the even one; none when the result is too large for a float. *)
Definition float_of_int (v : Z) : option Z :=
  let a := Z.abs v in
  let e := Z.log2 a - 52 in
  let r :=
    if e <=? 0 then a
    else
      let q := a / 2 ^ e in
      let rest := a mod 2 ^ e in
      let half := 2 ^ (e - 1) in
      if (half <? rest) || ((rest =? half) && Z.odd q) then (q + 1) * 2 ^ e
      else q * 2 ^ e in
  if r <? 2 ^ 1024 then Some (Z.sgn v * r) else None.

Definition floatable (x : pyval) : bool :=
  match x with
  | PyNone => true
  | PyInt v => match float_of_int v with Some _ => true | None => false end
  end.

(** What the scan of a column has met: a missing value, an integer, an
    integer above the signed range, a negative integer. *)
Record Seen : Type := {
  null_ : bool;
  int_ : bool;
  uint_ : bool;
  sint_ : bool
}.

Definition nothing_seen : Seen :=
  {| null_ := false; int_ := false; uint_ := false; sint_ := false |}.

Definition saw_null (s : Seen) : Seen :=
  {| null_ := true; int_ := int_ s; uint_ := uint_ s; sint_ := sint_ s |}.

(** An integer met after a missing value: it is counted, not ranged. *)
Definition an_int (s : Seen) : Seen :=
  {| null_ := null_ s; int_ := true; uint_ := uint_ s; sint_ := sint_ s |}.

Definition saw_int (v : Z) (s : Seen) : Seen :=
  {| null_ := null_ s;
     int_ := true;
     uint_ := uint_ s || ((INT64_MAX <? v) && (v <=? UINT64_MAX));
     sint_ := sint_ s || ((INT64_MIN <=? v) && (v <? 0)) |}.

(** The type [pd.DataFrame] gives a column of [None] and [int] values.
    Each integer is also written as a float; once a missing value was met
    the integers are no longer ranged.  A column in which no integer was
    met stays one of objects.  An integer that no float holds is
    [Beyond]. *)
Fixpoint maybe_convert_objects (vals : list pyval) (s : Seen) : result dtype :=
  match vals with
  | [] =>
      Ok (if int_ s then
            if null_ s then float64 else if uint_ s then uint64 else int64
          else object)
  | PyNone :: vals' => maybe_convert_objects vals' (saw_null s)
  | PyInt v :: vals' =>
      if floatable (PyInt v) then
        if null_ s then maybe_convert_objects vals' (an_int s)
        else
          let s' := saw_int v s in
          if (uint_ s' && sint_ s') || (UINT64_MAX <? v) || (v <? INT64_MIN)
          then Ok object
          else maybe_convert_objects vals' s'
      else Beyond
  end.

Definition is_null (x : pyval) : bool :=
  match x with PyNone => true | PyInt _ => false end.

Definition above_int64 (x : pyval) : bool :=
  match x with PyNone => false | PyInt v => INT64_MAX <? v end.

Definition negative (x : pyval) : bool :=
  match x with PyNone => false | PyInt v => v <? 0 end.

Definition outside_64_bits (x : pyval) : bool :=
  match x with
  | PyNone => false
  | PyInt v => (UINT64_MAX <? v) || (v <? INT64_MIN)
  end.

(** The type of a column after [pd.to_numeric(col, errors='coerce')]. *)
Definition to_numeric (d : dtype) (vals : list pyval) : result dtype :=
  match d with
  | object =>
      if forallb floatable vals then
        Ok (if existsb is_null vals || existsb outside_64_bits vals
               || (existsb above_int64 vals && existsb negative vals)
            then float64
            else if existsb above_int64 vals then uint64 else int64)
      else Beyond
  | _ => Ok d
  end.

(** [.fillna(0).astype(int)] on one value of a column of type [d]. *)
Definition astype_int (d : dtype) (x : pyval) : Z :=
  match x with
  | PyNone => 0
  | PyInt v =>
      match d with
      | int64 | object => v
      | uint64 => if v <=? INT64_MAX then v else v - 2 ^ 64
      | float64 =>
          match float_of_int v with
          | Some f => if fits_int64 f then f else INT64_MIN
          | None => INT64_MIN
          end
      end
  end.

Definition astype_row (dy dr : dtype) (r : Row pyval) : Book :=
  {| Title := Title r; Authors := Authors r; Genre := Genre r;
     Publication_Year := astype_int dy (Publication_Year r);
     Ratings := astype_int dr (Ratings r) |}.

(** Line 77: the types of the two numeric columns of [pd.DataFrame(books)]. *)
Definition dtypes_of (books : list (Row pyval)) : result (dtype * dtype) :=
  dy <- maybe_convert_objects (map (@Publication_Year _) books) nothing_seen ;;
  dr <- maybe_convert_objects (map (@Ratings _) books) nothing_seen ;;
  Ok (dy, dr).

(** Lines 82-83. *)
Definition clean_numbers (dtypes : dtype * dtype) (df : DataFrame pyval)
  : result (DataFrame Z) :=
  match df with
  | NoColumns => Raise KeyError
  | Frame rows =>
      dy <- to_numeric (fst dtypes) (map (@Publication_Year _) rows) ;;
      dr <- to_numeric (snd dtypes) (map (@Ratings _) rows) ;;
      Ok (Frame (map (astype_row dy dr) rows))
  end.

(** ** [fetch_books] *)

(** Lines 55-63 and 70: the year of a [publishedDate]. *)
Definition publication_year (published : string) : result Z :=
  year <-
    (if PyStr.is_empty published then Ok None
     else
       let year := PyStr.split1_first "-" published in
       if PyStr.isdigit year then y <- PyStr.int year ;; Ok (Some y)
       else Ok None) ;;
  Ok (match year with
      | Some y => if y =? 0 then 0 else y        (* [year if year else 0] *)
      | None => 0
      end).

Definition no_info : VolumeInfo :=
  {| title := None; authors := None; publishedDate := None;
     categories := None; ratingsCount := None |}.



(** The body of the loop over the items. *)
Definition book_of_item (item : Item) : result (Row pyval) :=
  let info := get (volumeInfo item) no_info in
  let title := get (title info) "Unknown Title" in
  let authors := PyStr.join ", " (get (authors info) ["Unknown Author"]) in
  let published := get (publishedDate info) EmptyString in
  year <- publication_year published ;;
  let categories := PyStr.join ", " (get (categories info) ["Uncategorized"]) in
  let ratings := get (ratingsCount info) (PyInt 0) in
  Ok {| Title := title; Authors := authors; Genre := categories;
        Publication_Year := PyInt year; Ratings := ratings |}.

Definition fetch_books (service : string -> Z -> Response)
  (subject : string) (max_results : Z) : result (DataFrame Z) :=
  match service subject max_results with
  | RequestException e => Raise (RuntimeError ("API request failed: " ++ e))
  | Json data =>
      let items := get data [] in
      books <- mapM book_of_item items ;;
      let df := DataFrame_of books in
      dtypes <- dtypes_of books ;;
      let df := drop_duplicates df in
      df <- drop_unknown_title df ;;
      clean_numbers dtypes df
  end.

(** ** [MainWindow] *)

(** The window: the frame it was built from (a frame with the five columns,
    given by its rows) and the widgets the slots read and write. *)
Record MainWindow : Type := {
  df : list Book;
  combo_items : list string;     (* the entries of [combo_genre] *)
  combo_genre : string;          (* [combo_genre.currentText()] *)
  input_year : string;           (* [input_year.text()] *)
  input_ratings : string;        (* [input_ratings.text()] *)
  text_area : string
}.

Inductive Dialog : Type :=
| Warning (caption text : string)
| Information (caption text : string)
| Critical (caption text : string).

(** [set(l)]: the elements of [l], each once. *)
Definition set (l : list string) : list string := nodup string_dec l.

Fixpoint insert_sorted (x : string) (l : list string) : list string :=
  match l with
  | [] => [x]
  | y :: l' => if (x <=? y)%string then x :: l else y :: insert_sorted x l'
  end.

(** [sorted(l)] for strings: ascending, by code point. *)
Definition sorted (l : list string) : list string :=
  fold_right insert_sorted [] l.

(** Line 123: [sorted(set(df['Genre'].str.split(', ').str[0].tolist()))] *)
Definition genres (rows : list Book) : list string :=
  sorted (set (map (fun b => PyStr.split_comma_space_first (Genre b)) rows)).

(** [MainWindow(df)]: the combo box shows its first entry, the inputs and
    the text area are empty. *)
Definition init_ui (rows : list Book) : MainWindow :=
  {| df := rows;
     combo_items := genres rows;
     combo_genre := hd EmptyString (genres rows);
     input_year := EmptyString;
     input_ratings := EmptyString;
     text_area := EmptyString |}.

Definition setText (w : MainWindow) (t : string) : MainWindow :=
  {| df := df w; combo_items := combo_items w; combo_genre := combo_genre w;
     input_year := input_year w; input_ratings := input_ratings w;
     text_area := t |}.

(** What a slot leaves: the window, the message boxes it opened, and
    whether it returned or let an exception out. *)
Record Run : Type := {
  window : MainWindow;
  dialogs : list Dialog;
  status : result unit
}.

Definition returns (w : MainWindow) (ds : list Dialog) : Run :=
  {| window := w; dialogs := ds; status := Ok tt |}.

Definition escapes {A} (w : MainWindow) (r : result A) : Run :=
  {| window := w; dialogs := [];
     status := match r with
               | Ok _ => Ok tt | Raise e => Raise e | Beyond => Beyond
               end |}.

(** [int(text) if text else 0] *)
Definition int_or_zero (text : string) : result Z :=
  if PyStr.is_empty text then Ok 0 else PyStr.int text.

(** [col.str.contains(genre, case=False, na=False)] as a row filter: the
    pattern is compiled once, then searched in every row. *)
Definition str_contains (genre : string) (rows : list Book)
  : result (list Book) :=
  r <- Re.compile genre ;;
  Ok (filter (fun b => Re.search r (Genre b)) rows).

(** Lines 175-180 of [apply_filter]. *)
Definition apply_filter_rows (genre : string) (min_year min_ratings : Z)
  (rows : list Book) : result (list Book) :=
  let df_filtered := rows in
  df_filtered <-
    (if PyStr.is_empty genre then Ok df_filtered
     else str_contains genre df_filtered) ;;
  Ok (filter (fun b => (min_year <=? Publication_Year b)
                       && (min_ratings <=? Ratings b)) df_filtered).

Definition title_line (b : Book) : string := Title b ++ " by " ++ Authors b.

Definition apply_filter (w : MainWindow) : Run :=
  let genre := combo_genre w in
  let year_text := PyStr.strip (input_year w) in
  let ratings_text := PyStr.strip (input_ratings w) in
  match int_or_zero year_text with
  | Raise ValueError =>
      returns w [Warning "Input Error" "Year must be an integer."]
  | Ok min_year =>
      match int_or_zero ratings_text with
      | Raise ValueError =>
          returns w [Warning "Input Error" "Ratings must be an integer."]
      | Ok min_ratings =>
          match apply_filter_rows genre min_year min_ratings (df w) with
          | Ok [] => returns (setText w "No books found with these filters.") []
          | Ok df_filtered =>
              returns (setText w (PyStr.join PyStr.newline
                                    (map title_line df_filtered))) []
          | other => escapes w other
          end
      | other => escapes w other
      end
  | other => escapes w other
  end.

(** Lines 209-213 of [suggest_random]. *)
Definition suggest_random_rows (genre : string) (min_year min_ratings : Z)
  (rows : list Book) : result (list Book) :=
  let df_filtered := rows in
  df_filtered <-
    (if PyStr.is_empty genre then Ok df_filtered
     else str_contains genre df_filtered) ;;
  Ok (filter (fun b => (min_year <=? Publication_Year b)
                       && (min_ratings <=? Ratings b)) df_filtered).

(** [df_filtered.sample(1).iloc[0]] on a frame with at least one row; [rnd]
    is the draw of the generator. *)
Definition sample1 (rnd : nat) (first : Book) (others : list Book) : Book :=
  nth (Nat.modulo rnd (S (List.length others))) (first :: others) first.

Definition details (book : Book) : string :=
  "Title: " ++ Title book ++ PyStr.newline ++
  "Authors: " ++ Authors book ++ PyStr.newline ++
  "Genre: " ++ Genre book ++ PyStr.newline ++
  "Published Year: " ++ PyStr.str_of_int (Publication_Year book)
     ++ PyStr.newline ++
  "Ratings Count: " ++ PyStr.str_of_int (Ratings book).

Definition suggest_random (rnd : nat) (w : MainWindow) : Run :=
  let genre := combo_genre w in
  let year_text := PyStr.strip (input_year w) in
  let ratings_text := PyStr.strip (input_ratings w) in
  match (min_year <- int_or_zero year_text ;;
         min_ratings <- int_or_zero ratings_text ;;
         Ok (min_year, min_ratings)) with
  | Raise ValueError =>
      returns w [Warning "Input Error" "Year and Ratings must be integers."]
  | Ok (min_year, min_ratings) =>
      match suggest_random_rows genre min_year min_ratings (df w) with
      | Ok [] =>
          returns w [Information "No Books" "No books match the criteria."]
      | Ok (first :: others) =>
          let book := sample1 rnd first others in
          returns (setText w (details book)) []
      | other => escapes w other
      end
  | other => escapes w other
  end.

(** ** Start-up *)

(** How the start-up ends.  [Exit1 d]: a handler ran, it asks for the
    message box [d] and then calls [sys.exit(1)].  [Uncaught e]: no handler
    takes [e], and the interpreter stops on it.  [Unknown]: a fetch was
    [Beyond].  [Shown w]: the window [w] is built and shown. *)
Inductive Startup : Type :=
| Exit1 (d : Dialog)
| Uncaught (e : exn)
| Unknown
| Shown (w : MainWindow).

Definition main (service : string -> Z -> Response) : Startup :=
  match (df_fiction <- fetch_books service "Fiction" 40 ;;
         df_history <- fetch_books service "History" 40 ;;
         Ok (concat2 df_fiction df_history)) with
  | Raise (RuntimeError e) => Exit1 (Critical "API Error" e)
  | Raise e => Uncaught e
  | Beyond => Unknown
  | Ok df_all =>
      match drop_duplicates df_all with
      | Frame rows => Shown (init_ui rows)
      | NoColumns => Exit1 (Critical "Application Error" "'Genre'")
      end
  end.

(** ** The words of the specification *)

(** [needle] is at the start of [hay], case ignored. *)
Fixpoint iprefix (needle hay : list ascii) : bool :=
  match needle, hay with
  | [], _ => true
  | _ :: _, [] => false
  | p :: needle', c :: hay' => Re.same_letter p c && iprefix needle' hay'
  end.

Fixpoint icontains_list (needle hay : list ascii) : bool :=
  iprefix needle hay ||
  match hay with
  | [] => false
  | _ :: hay' => icontains_list needle hay'
  end.

(** "[field] contains [g] as a case-insensitive substring". *)
Definition icontains (g field : string) : bool :=
  icontains_list (list_ascii_of_string g) (list_ascii_of_string field).

(** The membership test of the filter, as the specification words it. *)
Definition passes (g : string) (min_year min_ratings : Z) (b : Book) : bool :=
  (PyStr.is_empty g || icontains g (Genre b))
  && (min_year <=? Publication_Year b) && (min_ratings <=? Ratings b).

(** The invariant of a Dataset on its two numeric fields. *)
Definition non_negative (rows : list Book) : Prop :=
  forall b, In b rows -> 0 <= Publication_Year b /\ 0 <= Ratings b.


(** No text, or white space only. *)
Definition blank (text : string) : bool := PyStr.all_chars PyStr.isspace text.

(** The test that a row carries the pair [k] of a title and authors. *)
Definition has_key {N} (k : string * string) (b : Row N) : bool :=
  key_eqb (key b) k.

(** The answer came, and it carries no item. *)
Definition no_items (r : Response) : bool :=
  match r with
  | Json data => match get data [] with [] => true | _ :: _ => false end
  | RequestException _ => false
  end.

(** [a] comes strictly before [b] in the order of [sorted]. *)
Definition before (a b : string) : Prop := (a <? b)%string = true.

(** ** Auxiliary notions *)

(** The regular expression that reads [l] letter by letter. *)
Definition lits (l : list ascii) : Re.regex :=
  fold_right (fun c acc => Re.Cat (Re.Lit c) acc) Re.Eps l.

(** A pattern in which no character is special. *)
Definition plain (l : list ascii) : bool :=
  forallb (fun c => negb (Re.special c)) l.

(** What the user sees of a run: the text area, the message boxes, and how
    the slot ended. *)
Definition outcome (r : Run) : string * list Dialog * result unit :=
  (text_area (window r), dialogs r, status r).

(** The window after the user typed [t] in a field. *)
Definition setYear (w : MainWindow) (t : string) : MainWindow :=
  {| df := df w; combo_items := combo_items w; combo_genre := combo_genre w;
     input_year := t; input_ratings := input_ratings w;
     text_area := text_area w |}.

Definition setRatings (w : MainWindow) (t : string) : MainWindow :=
  {| df := df w; combo_items := combo_items w; combo_genre := combo_genre w;
     input_year := input_year w; input_ratings := t;
     text_area := text_area w |}.

Definition is_warning (d : Dialog) : bool :=
  match d with Warning _ _ => true | _ => false end.

(** The rows of [books] that [fetch_books] keeps: the first row of each
    pair of a title and authors, but for the rows without a title. *)
Definition kept_rows {N} (books : list (Row N)) : list (Row N) :=
  filter known_title (drop_seen [] books).

(** A cell that holds an integer of 64 bits. *)
Definition exact (x : pyval) : bool :=
  match x with PyNone => false | PyInt v => fits_int64 v end.




(** ** Sample data *)

Definition spider_man : Book :=
  {| Title := "The Amazing Spider-Man"; Authors := "Stan Lee";
     Genre := "Spider-Man (Fictitious character)";
     Publication_Year := 1963; Ratings := 12 |}.

(** The two books of the scenarios of the specification. *)
Definition t1 : Book :=
  {| Title := "T1"; Authors := "A1"; Genre := "Fiction";
     Publication_Year := 2010; Ratings := 5 |}.

Definition t2 : Book :=
  {| Title := "T2"; Authors := "A2"; Genre := "History";
     Publication_Year := 1990; Ratings := 0 |}.

(** The superscript two, U+00B2. *)
Definition superscript_two : string := String (ascii_of_N 178) EmptyString.

(** An item with a title and a date, and one with a title and a ratings
    count. *)
Definition dated (t d : string) : Item :=
  {| volumeInfo := Some {| title := Some t; authors := None;
                           publishedDate := Some d; categories := None;
                           ratingsCount := None |} |}.

Definition counted (t : string) (count : Z) : Item :=
  {| volumeInfo := Some {| title := Some t; authors := None;
                           publishedDate := None; categories := None;
                           ratingsCount := Some (PyInt count) |} |}.

(** A service that answers every request with the same items. *)
Definition always (items : list Item) : string -> Z -> Response :=
  fun _ _ => Json (Some items).

(** A service that answers with no item when asked for [empty], and with
    [items] otherwise. *)
Definition empty_for (empty : string) (items : list Item)
  : string -> Z -> Response :=
  fun subject _ =>
    if (subject =? empty)%string then Json None else Json (Some items).

(** ** Notions for the further properties *)

(** [l1] is [l2] with some elements left out, the others in their order. *)
Inductive subseq {A : Type} : list A -> list A -> Prop :=
| sub_nil : subseq [] []
| sub_skip a l1 l2 : subseq l1 l2 -> subseq l1 (a :: l2)
| sub_keep a l1 l2 : subseq l1 l2 -> subseq (a :: l1) (a :: l2).

(** The two comparisons of the filter. *)
Definition recent_and_rated (min_year min_ratings : Z) (b : Book) : bool :=
  (min_year <=? Publication_Year b) && (min_ratings <=? Ratings b).

(** The pair of [b] is not among the pairs of [rows]. *)
Definition new_for (rows : list Book) (b : Book) : bool :=
  negb (existsb (key_eqb (key b)) (map key rows)).

(** A character that is neither white space nor part of a decimal literal. *)
Definition foreign (c : ascii) : bool :=
  negb (PyStr.isdecimal c) && negb (PyStr.isspace c)
  && negb (Ascii.eqb c "_") && negb (Ascii.eqb c "+")
  && negb (Ascii.eqb c "-").

Definition has_char (p : ascii -> bool) (s : string) : bool :=
  existsb p (list_ascii_of_string s).

(** The request failed, with the reason [e]. *)
Definition failed (r : Response) (e : string) : Prop :=
  r = RequestException e.

(** A service whose request for [broken] fails with [reason], and that
    answers with [items] otherwise. *)
Definition failing_for (broken reason : string) (items : list Item)
  : string -> Z -> Response :=
  fun subject _ =>
    if (subject =? broken)%string then RequestException reason
    else Json (Some items).



(** * Properties *)

(** ** The matcher against the meaning of a regular expression *)

Section Matcher.

Import Re.
Local Open Scope list_scope.

Lemma matches_nil_nullable r s : matches r s -> s = [] -> nullable r = true.
Proof.
  induction 1; intros E; simpl; try reflexivity; try discriminate.
  - apply app_eq_nil in E. destruct E as [E1 E2].
    rewrite IHmatches1, IHmatches2 by assumption. reflexivity.
  - rewrite IHmatches by assumption. reflexivity.
  - rewrite IHmatches by assumption. apply orb_true_r.
Qed.

Lemma nullable_matches_nil r : nullable r = true -> matches r [].
Proof.
  induction r; simpl; intros E; try discriminate.
  - constructor.
  - apply andb_true_iff in E. destruct E as [E1 E2].
    change (@nil ascii) with (@nil ascii ++ []). constructor; auto.
  - apply orb_true_iff in E. destruct E as [E | E].
    + apply m_alt_l; auto.
    + apply m_alt_r; auto.
  - constructor.
Qed.

Lemma nullable_spec r : nullable r = true <-> matches r [].
Proof.
  split.
  - apply nullable_matches_nil.
  - intros M. eapply matches_nil_nullable; eauto.
Qed.

Lemma matches_deriv r s0 :
  matches r s0 -> forall c s, s0 = c :: s -> matches (deriv c r) s.
Proof.
  induction 1; intros a t E; simpl; try discriminate.
  - injection E as E1 E2. subst. rewrite H. constructor.
  - injection E as E1 E2. subst. rewrite H. constructor.
  - destruct s1 as [| c1 s1'].
    + simpl in E. subst s2.
      rewrite (matches_nil_nullable H eq_refl).
      apply m_alt_r. apply IHmatches2. reflexivity.
    + simpl in E. injection E as E1 E2. subst.
      assert (M : matches (Cat (deriv a r1) r2) (s1' ++ s2)).
      { constructor; auto. }
      destruct (nullable r1); [apply m_alt_l |]; exact M.
  - apply m_alt_l. auto.
  - apply m_alt_r. auto.
  - destruct s1 as [| c1 s1'].
    + simpl in E. apply IHmatches2 in E. exact E.
    + simpl in E. injection E as E1 E2. subst.
      constructor; auto.
Qed.

Lemma deriv_matches r : forall c s, matches (deriv c r) s -> matches r (c :: s).
Proof.
  induction r; intros a s M; simpl in M.
  - inversion M.
  - inversion M.
  - destruct (same_letter c a) eqn:E; inversion M; subst. constructor; exact E.
  - destruct (is_newline a) eqn:E; inversion M; subst. constructor; exact E.
  - assert (K : forall s, matches (Cat (deriv a r1) r2) s ->
                          matches (Cat r1 r2) (a :: s)).
    { intros s' M'. inversion M'; subst.
      change (a :: s1 ++ s2) with ((a :: s1) ++ s2). constructor; auto. }
    destruct (nullable r1) eqn:N.
    + inversion M; subst.
      * apply K; assumption.
      * change (a :: s) with ([] ++ a :: s). constructor; auto.
        apply nullable_matches_nil; exact N.
    + apply K; assumption.
  - inversion M; subst.
    + apply m_alt_l; auto.
    + apply m_alt_r; auto.
  - inversion M; subst.
    change (a :: s1 ++ s2) with ((a :: s1) ++ s2). constructor; auto.
Qed.

Lemma deriv_spec r c s : matches (deriv c r) s <-> matches r (c :: s).
Proof.
  split.
  - apply deriv_matches.
  - intros M. eapply matches_deriv; eauto.
Qed.

Lemma match_here_spec s : forall r,
  match_here r s = true <-> exists s1 s2, s = s1 ++ s2 /\ matches r s1.
Proof.
  induction s as [| c s IH]; intros r; simpl.
  - rewrite orb_false_r, nullable_spec. split.
    + intros M. exists [], []. auto.
    + intros (s1 & s2 & E & M). symmetry in E.
      apply app_eq_nil in E. destruct E; subst. exact M.
  - rewrite orb_true_iff, nullable_spec, IH. split.
    + intros [M | (s1 & s2 & E & M)].
      * exists [], (c :: s). auto.
      * exists (c :: s1), s2. split; [simpl; congruence |].
        apply deriv_spec; exact M.
    + intros (s1 & s2 & E & M). destruct s1 as [| c1 s1].
      * left; exact M.
      * right. simpl in E. injection E as E1 E2. subst.
        exists s1, s2. split; [reflexivity |]. apply deriv_spec; exact M.
Qed.

Lemma search_list_spec r s :
  search_list r s = true <->
  exists pre mid post, s = pre ++ mid ++ post /\ matches r mid.
Proof.
  induction s as [| c s IH]; simpl.
  - rewrite !orb_false_r, nullable_spec. split.
    + intros M. exists [], [], []. auto.
    + intros (pre & mid & post & E & M). symmetry in E.
      apply app_eq_nil in E. destruct E as [_ E].
      apply app_eq_nil in E. destruct E; subst. exact M.
  - rewrite orb_true_iff, IH.
    rewrite (match_here_spec (c :: s) r). split.
    + intros [(s1 & s2 & E & M) | (pre & mid & post & E & M)].
      * exists [], s1, s2. auto.
      * exists (c :: pre), mid, post. split; [simpl; congruence | exact M].
    + intros (pre & mid & post & E & M). destruct pre as [| c1 pre].
      * left. exists mid, post. auto.
      * right. simpl in E. injection E as E1 E2. subst.
        exists pre, mid, post. auto.
Qed.

End Matcher.

(** ** Patterns without special characters *)

Section Literal.

Import Re.
Local Open Scope list_scope.

Lemma same_letter_refl c : same_letter c c = true.
Proof. unfold same_letter. apply Ascii.eqb_refl. Qed.

Lemma matches_lits l : forall s,
  matches (lits l) s <-> Forall2 (fun p c => same_letter p c = true) l s.
Proof.
  induction l as [| p l IH]; intros s; simpl.
  - split.
    + intros M. inversion M. constructor.
    + intros F. inversion F. constructor.
  - split.
    + intros M. inversion M as [| | | r1 r2 s1 s2 M1 M2 | | | |]; subst.
      inversion M1; subst. simpl. constructor; [assumption |].
      apply IH; assumption.
    + intros F. inversion F as [| p' c l' s' E F']; subst.
      change (c :: s') with ([c] ++ s'). constructor.
      * constructor; assumption.
      * apply IH; assumption.
Qed.

Lemma iprefix_spec l : forall s,
  iprefix l s = true <->
  exists s1 s2, s = s1 ++ s2 /\ Forall2 (fun p c => same_letter p c = true) l s1.
Proof.
  induction l as [| p l IH]; intros s; simpl.
  - split; [| reflexivity]. intros _. exists [], s. split; [reflexivity | constructor].
  - destruct s as [| c s].
    + split; [discriminate |]. intros (s1 & s2 & E & F).
      inversion F; subst. discriminate.
    + rewrite andb_true_iff, IH. split.
      * intros (E & s1 & s2 & -> & F). exists (c :: s1), s2.
        split; [reflexivity | constructor; assumption].
      * intros (s1 & s2 & E & F). inversion F as [| p' c' l' s1' E' F']; subst.
        simpl in E. injection E as E1 E2. subst.
        split; [assumption |]. exists s1', s2. auto.
Qed.

Lemma match_here_lits l s : match_here (lits l) s = iprefix l s.
Proof.
  apply eq_iff_eq_true. rewrite match_here_spec, iprefix_spec.
  split; intros (s1 & s2 & E & M); exists s1, s2; (split; [exact E |]);
    apply matches_lits; exact M.
Qed.

Lemma search_list_lits l s : search_list (lits l) s = icontains_list l s.
Proof.
  induction s as [| c s IH]; cbn [search_list icontains_list];
    rewrite match_here_lits.
  - reflexivity.
  - rewrite IH. reflexivity.
Qed.

Lemma branch_rev_lits l :
  branch (rev (map (fun c => (Lit c, false)) l)) = lits l.
Proof.
  unfold branch, lits. rewrite <- fold_left_rev_right, rev_involutive.
  induction l as [| c l IH]; simpl; [reflexivity | rewrite IH; reflexivity].
Qed.

Lemma special_false c :
  special c = false ->
  Ascii.eqb c "(" = false /\ Ascii.eqb c ")" = false /\
  Ascii.eqb c "|" = false /\ Ascii.eqb c "*" = false /\
  Ascii.eqb c "+" = false /\ Ascii.eqb c "?" = false /\
  Ascii.eqb c "." = false /\ Ascii.eqb c "\" = false.
Proof.
  unfold special. simpl. intros H.
  repeat (apply orb_false_iff in H; destruct H as [? H]).
  repeat split; assumption.
Qed.

Lemma parse_plain l : forall cur stack,
  plain l = true ->
  parse l cur stack =
  parse [] {| alts := alts cur;
              items := rev (map (fun c => (Lit c, false)) l) ++ items cur |}
        stack.
Proof.
  induction l as [| c l IH]; intros cur stack P.
  - destruct cur; reflexivity.
  - simpl in P. apply andb_true_iff in P. destruct P as [Pc Pl].
    apply negb_true_iff in Pc.
    destruct (special_false c Pc) as (E1 & E2 & E3 & E4 & E5 & E6 & E7 & E8).
    cbn [parse]. rewrite E1, E2, E3, E4, E5, E6, E7, E8, Pc.
    rewrite IH by assumption. simpl. rewrite <- app_assoc. reflexivity.
Qed.

(** A pattern without special characters compiles to its own letters. *)
Lemma compile_plain (pat : string) :
  plain (list_ascii_of_string pat) = true ->
  compile pat = Ok (lits (list_ascii_of_string pat)).
Proof.
  intros P. unfold compile. rewrite parse_plain by assumption.
  simpl. rewrite app_nil_r. unfold close. simpl.
  rewrite branch_rev_lits. reflexivity.
Qed.

(** On such a pattern the search is the case-insensitive substring test. *)
Lemma str_contains_plain (genre : string) (rows : list Book) :
  plain (list_ascii_of_string genre) = true ->
  str_contains genre rows = Ok (filter (fun b => icontains genre (Genre b)) rows).
Proof.
  intros P. unfold str_contains. rewrite compile_plain by assumption.
  simpl. f_equal. apply filter_ext. intros b.
  unfold search, icontains. apply search_list_lits.
Qed.

End Literal.

(** ** The filter *)

Lemma filter_filter {A} (p q : A -> bool) (l : list A) :
  filter p (filter q l) = filter (fun x => q x && p x) l.
Proof.
  induction l as [| a l IH]; simpl; [reflexivity |].
  destruct (q a); simpl; [destruct (p a) |]; rewrite IH; reflexivity.
Qed.

(** With a genre in which no character is special (the empty genre too),
    the filter keeps exactly the rows that pass the three tests, in their
    order. *)
Lemma apply_filter_rows_plain g min_year min_ratings rows :
  plain (list_ascii_of_string g) = true ->
  apply_filter_rows g min_year min_ratings rows =
  Ok (filter (passes g min_year min_ratings) rows).
Proof.
  intros P. unfold apply_filter_rows, passes.
  destruct (PyStr.is_empty g) eqn:E; simpl.
  - reflexivity.
  - rewrite str_contains_plain by assumption. simpl.
    rewrite filter_filter. f_equal. apply filter_ext. intros b.
    rewrite andb_assoc. reflexivity.
Qed.

Lemma apply_filter_rows_plain_iff g min_year min_ratings rows out b :
  plain (list_ascii_of_string g) = true ->
  apply_filter_rows g min_year min_ratings rows = Ok out ->
  (In b out <->
   In b rows /\ (g = EmptyString \/ icontains g (Genre b) = true) /\
   min_year <= Publication_Year b /\ min_ratings <= Ratings b).
Proof.
  intros P E. rewrite apply_filter_rows_plain in E by assumption.
  injection E as <-. rewrite filter_In. unfold passes.
  rewrite !andb_true_iff, orb_true_iff, !Z.leb_le.
  assert (K : PyStr.is_empty g = true <-> g = EmptyString).
  { destruct g; simpl; split; congruence. }
  rewrite K. tauto.
Qed.

(** C1 (the code at the failing input).  The book's genre field is the
    genre the selector offers for it, so it contains that genre and passes
    the three tests of the claim with minimum year 0 and minimum ratings 0;
    the filter of [apply_filter], and that of [suggest_random], read the
    genre as a pattern in which the parentheses form a group, and return no
    row. *)
Theorem genre_is_read_as_a_pattern :
  combo_genre (init_ui [spider_man]) = Genre spider_man /\
  passes (Genre spider_man) 0 0 spider_man = true /\
  apply_filter_rows (Genre spider_man) 0 0 [spider_man] = Ok [] /\
  suggest_random_rows (Genre spider_man) 0 0 [spider_man] = Ok [] /\
  text_area (window (apply_filter (init_ui [spider_man]))) =
    "No books found with these filters.".
Proof. vm_compute. repeat split. Qed.

(** ** Text and numbers *)














(** *** The year of a date *)





(** C5 (the code at the failing input).  The two dates of the scenario give
    2015 and 0.  A date made of the superscript two is accepted by
    [isdigit], [int] refuses it, and the [ValueError] leaves [fetch_books]
    and ends the start-up, where the claim gives the year 0. *)
Theorem year_of_a_superscript_date :
  publication_year "2015-03-04" = Ok 2015 /\
  publication_year "circa 1990" = Ok 0 /\
  PyStr.all_chars PyStr.isdecimal superscript_two = false /\
  publication_year superscript_two = Raise ValueError /\
  fetch_books (always [dated "T1" superscript_two]) "Fiction" 40
    = Raise ValueError /\
  main (always [dated "T1" superscript_two]) = Uncaught ValueError.
Proof. vm_compute. repeat split. Qed.

(** ** The numeric columns *)



(** An integer below 2^1023 in absolute value has a float. *)
Lemma floatable_below v : Z.abs v < 2 ^ 1023 -> floatable (PyInt v) = true.
Proof.
  intros B. unfold floatable, float_of_int.
  cbv zeta. set (a := Z.abs v) in *. set (e := Z.log2 a - 52).
  assert (A : 0 <= a) by (unfold a; lia).
  assert (P : 2 ^ 1024 = 2 * 2 ^ 1023)
    by (change 1024 with (Z.succ 1023); apply Z.pow_succ_r; lia).
  assert (R : (if e <=? 0 then a
               else if (2 ^ (e - 1) <? a mod 2 ^ e)
                       || ((a mod 2 ^ e =? 2 ^ (e - 1)) && Z.odd (a / 2 ^ e))
                    then (a / 2 ^ e + 1) * 2 ^ e else a / 2 ^ e * 2 ^ e)
              < 2 ^ 1024).
  { rewrite P. generalize dependent (2 ^ 1023). intros p B _.
    destruct (e <=? 0) eqn:E; [lia |]. apply Z.leb_gt in E.
    assert (Ea : 2 ^ e <= a).
    { assert (0 < a) by (destruct (Z.eq_dec a 0) as [Z0 | ]; [| lia];
                         unfold e in E; rewrite Z0 in E; simpl in E; lia).
      assert (2 ^ Z.log2 a <= a) by (apply Z.log2_spec; lia).
      assert (2 ^ e <= 2 ^ Z.log2 a) by (apply Z.pow_le_mono_r; unfold e; lia).
      lia. }
    assert (Pe : 0 < 2 ^ e) by (apply Z.pow_pos_nonneg; lia).
    pose proof (Z.mul_div_le a (2 ^ e) Pe) as D.
    destruct (_ || _); nia. }
  apply Z.ltb_lt in R. rewrite R. reflexivity.
Qed.

(** An integer of 64 bits has a float. *)
Lemma floatable_64 v :
  INT64_MIN <= v <= UINT64_MAX -> floatable (PyInt v) = true.
Proof.
  unfold INT64_MIN, UINT64_MAX. intros B. apply floatable_below.
  assert (2 ^ 64 < 2 ^ 1023) by (apply Z.pow_lt_mono_r; lia). lia.
Qed.












(** ** [fetch_books] *)

Lemma mapM_Ok {A B} (f : A -> result B) l : forall l',
  mapM f l = Ok l' -> Forall2 (fun a b => f a = Ok b) l l'.
Proof.
  induction l as [| a l IH]; intros l' E; simpl in E.
  - injection E as <-. constructor.
  - destruct (f a) as [b | |] eqn:Fa; simpl in E; try discriminate.
    destruct (mapM f l) as [bs | |]; simpl in E; try discriminate.
    injection E as <-. constructor; [assumption | apply IH; reflexivity].
Qed.

Lemma Forall2_In_r {A B} (R : A -> B -> Prop) l l' b :
  Forall2 R l l' -> In b l' -> exists a, In a l /\ R a b.
Proof.
  induction 1 as [| a0 b0 l l' R0 F IH]; intros I; [destruct I |].
  destruct I as [<- | I].
  - exists a0. split; [left; reflexivity | assumption].
  - destruct (IH I) as (a & Ia & Ra). exists a. split; [right |]; assumption.
Qed.

Lemma Forall2_In_l {A B} (R : A -> B -> Prop) l l' a :
  Forall2 R l l' -> In a l -> exists b, In b l' /\ R a b.
Proof.
  induction 1 as [| a0 b0 l l' R0 F IH]; intros I; [destruct I |].
  destruct I as [<- | I].
  - exists b0. split; [left; reflexivity | assumption].
  - destruct (IH I) as (b & Ib & Rb). exists b. split; [right |]; assumption.
Qed.

Lemma drop_seen_nonempty {N} (rows : list (Row N)) : forall seen b,
  drop_seen seen rows = [] -> In b rows -> existsb (key_eqb (key b)) seen = true.
Proof.
  induction rows as [| a rows IH]; intros seen b E I; [destruct I |].
  simpl in E. destruct (existsb (key_eqb (key a)) seen) eqn:S; [| discriminate].
  destruct I as [<- | I]; [assumption | eapply IH; eassumption].
Qed.

Lemma drop_seen_In {N} (rows : list (Row N)) : forall seen b,
  In b (drop_seen seen rows) -> In b rows.
Proof.
  induction rows as [| a rows IH]; intros seen b I; [destruct I |].
  simpl in I. destruct (existsb (key_eqb (key a)) seen).
  - right. eapply IH; eassumption.
  - destruct I as [<- | I]; [left; reflexivity | right; eapply IH; eassumption].
Qed.

Lemma kept_rows_In {N} (books : list (Row N)) r :
  In r (kept_rows books) -> In r books.
Proof.
  unfold kept_rows. intros I. apply filter_In in I. destruct I as [I _].
  eapply drop_seen_In; eassumption.
Qed.

(** The cleaning leaves the title, the authors and the genre of a row. *)
Lemma key_astype_row dy dr r : key (astype_row dy dr r) = key r.
Proof. reflexivity. Qed.

Lemma known_title_astype_row dy dr r :
  known_title (astype_row dy dr r) = known_title r.
Proof. reflexivity. Qed.


(** What a successful call returns: the items were all read, there was at
    least one, the two numeric columns got a type, and the frame holds the
    first row of every key but for the rows without a title, with its
    numbers cast to the types of their columns. *)
Lemma fetch_books_Ok service subject n df :
  fetch_books service subject n = Ok df ->
  exists books d0 dy dr,
    mapM book_of_item (items_of (service subject n)) = Ok books /\
    books <> [] /\
    dtypes_of books = Ok d0 /\
    to_numeric (fst d0) (map (@Publication_Year _) (kept_rows books))
      = Ok dy /\
    to_numeric (snd d0) (map (@Ratings _) (kept_rows books)) = Ok dr /\
    df = Frame (map (astype_row dy dr) (kept_rows books)).
Proof.
  unfold fetch_books. destruct (service subject n) as [e | data]; [discriminate |].
  cbn [items_of].
  destruct (mapM book_of_item (get data [])) as [books | |];
    cbn [bind]; try discriminate.
  destruct (dtypes_of books) as [d0 | |] eqn:D; cbn [bind]; try discriminate.
  intros E. exists books, d0.
  destruct books as [| b books];
    [cbn [DataFrame_of drop_duplicates drop_unknown_title bind] in E;
     discriminate |].
  cbn [DataFrame_of drop_duplicates drop_unknown_title bind clean_numbers] in E.
  fold (kept_rows (b :: books)) in E.
  destruct (to_numeric (fst d0) _) as [dy | |]; cbn [bind] in E;
    try discriminate.
  destruct (to_numeric (snd d0) _) as [dr | |]; cbn [bind] in E;
    try discriminate.
  injection E as <-. exists dy, dr.
  repeat split; try reflexivity; [discriminate | exact D].
Qed.




Lemma fetch_books_rows service subject n rows b :
  fetch_books service subject n = Ok (Frame rows) -> In b rows ->
  exists item r dy dr,
    In item (items_of (service subject n)) /\
    book_of_item item = Ok r /\ b = astype_row dy dr r.
Proof.
  intros E I.
  destruct (fetch_books_Ok _ _ _ E) as (books & d0 & dy & dr & M & _ & _ & _ & _ & F).
  injection F as ->. apply in_map_iff in I. destruct I as (r & <- & I).
  apply kept_rows_In in I. apply mapM_Ok in M.
  destruct (@Forall2_In_r _ _ _ _ _ _ M I) as (item & Ii & B).
  exists item, r, dy, dr. auto.
Qed.

Lemma main_Shown service w :
  main service = Shown w ->
  exists r1 r2,
    fetch_books service "Fiction" 40 = Ok (Frame r1) /\
    fetch_books service "History" 40 = Ok (Frame r2) /\
    w = init_ui (drop_seen [] (r1 ++ r2)).
Proof.
  unfold main.
  destruct (fetch_books service "Fiction" 40) as [d1 | e |] eqn:F1;
    cbn [bind]; [| destruct e; discriminate | discriminate].
  destruct (fetch_books service "History" 40) as [d2 | e |] eqn:F2;
    cbn [bind]; [| destruct e; discriminate | discriminate].
  destruct (fetch_books_Ok _ _ _ F1) as (b1 & ? & ? & ? & _ & _ & _ & _ & _ & ->).
  destruct (fetch_books_Ok _ _ _ F2) as (b2 & ? & ? & ? & _ & _ & _ & _ & _ & ->).
  cbn [concat2 drop_duplicates]. intros E. injection E as <-.
  eauto.
Qed.




(** ** Duplicates *)

Lemma key_eqb_eq k1 k2 : key_eqb k1 k2 = true <-> k1 = k2.
Proof.
  destruct k1 as [a1 b1], k2 as [a2 b2]. unfold key_eqb. simpl.
  rewrite andb_true_iff, !String.eqb_eq. split.
  - intros [-> ->]. reflexivity.
  - intros E. injection E as -> ->. auto.
Qed.

Lemma has_key_eq {N} k (b : Row N) : has_key k b = true <-> key b = k.
Proof. apply key_eqb_eq. Qed.

Lemma seen_In k seen : existsb (key_eqb k) seen = true <-> In k seen.
Proof.
  rewrite existsb_exists. split.
  - intros (x & I & E). apply key_eqb_eq in E. subst. assumption.
  - intros I. exists k. split; [assumption | apply key_eqb_eq; reflexivity].
Qed.

Lemma drop_seen_fresh {X} (rows : list (Row X)) : forall seen b,
  In b (drop_seen seen rows) -> ~ In (key b) seen.
Proof.
  induction rows as [| a rows IH]; intros seen b I; [destruct I |].
  simpl in I. destruct (existsb (key_eqb (key a)) seen) eqn:S.
  - apply IH; assumption.
  - destruct I as [<- | I].
    + intros J. apply seen_In in J. congruence.
    + apply IH in I. intros J. apply I. right. assumption.
Qed.

Lemma drop_seen_NoDup {X} (rows : list (Row X)) : forall seen,
  NoDup (map key (drop_seen seen rows)).
Proof.
  induction rows as [| a rows IH]; intros seen; simpl; [constructor |].
  destruct (existsb (key_eqb (key a)) seen); [apply IH |].
  simpl. constructor; [| apply IH].
  intros J. apply in_map_iff in J. destruct J as (b & E & I).
  apply drop_seen_fresh in I. apply I. left. symmetry. assumption.
Qed.

(** The row kept for a key is the first row that carries it. *)
Lemma drop_seen_find {X} (rows : list (Row X)) k : forall seen,
  ~ In k seen ->
  find (has_key k) (drop_seen seen rows) = find (has_key k) rows.
Proof.
  induction rows as [| a rows IH]; intros seen N; simpl; [reflexivity |].
  destruct (existsb (key_eqb (key a)) seen) eqn:S.
  - apply seen_In in S.
    assert (H : has_key k a = false).
    { destruct (has_key k a) eqn:H; [| reflexivity].
      apply has_key_eq in H. congruence. }
    rewrite H. apply IH; assumption.
  - simpl. destruct (has_key k a) eqn:H; [reflexivity |].
    apply IH. intros [J | J]; [| contradiction].
    apply has_key_eq in J. congruence.
Qed.

Lemma known_title_spec {N} (b : Row N) :
  known_title b = true <-> Title b <> "Unknown Title".
Proof.
  unfold known_title. rewrite negb_true_iff. apply String.eqb_neq.
Qed.

Lemma filter_known_find {X} (rows : list (Row X)) k :
  fst k <> "Unknown Title" ->
  find (has_key k) (filter known_title rows) = find (has_key k) rows.
Proof.
  intros N. induction rows as [| a rows IH]; simpl; [reflexivity |].
  destruct (known_title a) eqn:T; simpl.
  - rewrite IH. reflexivity.
  - destruct (has_key k a) eqn:H; [| assumption].
    apply has_key_eq in H. exfalso.
    assert (K : known_title a = true).
    { apply known_title_spec. rewrite <- H in N. exact N. }
    congruence.
Qed.

Lemma NoDup_map_filter {A B} (f : A -> B) (p : A -> bool) l :
  NoDup (map f l) -> NoDup (map f (filter p l)).
Proof.
  induction l as [| a l IH]; simpl; intros N; [constructor |].
  inversion N as [| x xs Nx Nl]; subst.
  destruct (p a); simpl; [| apply IH; assumption].
  constructor; [| apply IH; assumption].
  intros J. apply Nx. apply in_map_iff in J. destruct J as (b & E & I).
  apply filter_In in I. destruct I as [I _].
  apply in_map_iff. exists b. split; assumption.
Qed.

Lemma find_astype_row dy dr k rows :
  find (has_key k) (map (astype_row dy dr) rows)
  = option_map (astype_row dy dr) (find (has_key k) rows).
Proof.
  induction rows as [| r rows IH]; [reflexivity |]. cbn [map find].
  change (has_key k (astype_row dy dr r)) with (has_key k r).
  destruct (has_key k r); [reflexivity | exact IH].
Qed.

Lemma keys_astype_row dy dr rows :
  map key (map (astype_row dy dr) rows) = map key rows.
Proof. rewrite map_map. apply map_ext. intros r. reflexivity. Qed.

(** The frame of a successful call, row by row: no pair twice, no row
    without a title, each row the cleaned first row of its pair. *)
Lemma fetch_books_keys service subject n df :
  fetch_books service subject n = Ok df ->
  exists books dy dr rows,
    mapM book_of_item (items_of (service subject n)) = Ok books /\
    df = Frame rows /\
    rows = map (astype_row dy dr) (kept_rows books) /\
    NoDup (map key rows) /\
    (forall b, In b rows ->
       Title b <> "Unknown Title" /\
       exists r, In r books /\ b = astype_row dy dr r) /\
    (forall k, fst k <> "Unknown Title" ->
       find (has_key k) rows
       = option_map (astype_row dy dr) (find (has_key k) books)).
Proof.
  intros E.
  destruct (fetch_books_Ok _ _ _ E)
    as (books & d0 & dy & dr & M & _ & _ & _ & _ & ->).
  exists books, dy, dr, (map (astype_row dy dr) (kept_rows books)).
  split; [exact M |]. split; [reflexivity |]. split; [reflexivity |].
  split; [| split].
  - rewrite keys_astype_row. unfold kept_rows.
    apply NoDup_map_filter, drop_seen_NoDup.
  - intros b I. apply in_map_iff in I. destruct I as (r & <- & I). split.
    + unfold kept_rows in I. apply filter_In in I.
      apply (known_title_spec r), I.
    + exists r. split; [apply kept_rows_In; assumption | reflexivity].
  - intros k N. rewrite find_astype_row. f_equal. unfold kept_rows.
    rewrite filter_known_find by assumption.
    apply drop_seen_find. intros [].
Qed.

(** C4.  In the frame [fetch_books] returns, and in the frame the window is
    built from, no two rows have the same title and authors, no row has the
    title "Unknown Title", and the row kept for a pair is the first row of
    the sequence that carries it (the normalized items for a fetch, with
    the numbers of the row cast by the cleaning of the two numeric columns;
    the two fetched frames one after the other for the merge). *)
Theorem no_duplicate_titles service :
  (forall subject n df,
     fetch_books service subject n = Ok df ->
     exists books dy dr rows,
       mapM book_of_item (items_of (service subject n)) = Ok books /\
       df = Frame rows /\
       NoDup (map key rows) /\
       (forall b, In b rows ->
          Title b <> "Unknown Title" /\
          exists r, In r books /\ b = astype_row dy dr r) /\
       (forall k, fst k <> "Unknown Title" ->
          find (has_key k) rows
          = option_map (astype_row dy dr) (find (has_key k) books))) /\
  (forall w,
     main service = Shown w ->
     exists r1 r2,
       fetch_books service "Fiction" 40 = Ok (Frame r1) /\
       fetch_books service "History" 40 = Ok (Frame r2) /\
       NoDup (map key (df w)) /\
       (forall b, In b (df w) ->
                  Title b <> "Unknown Title" /\ In b (r1 ++ r2)%list) /\
       (forall k, find (has_key k) (df w) = find (has_key k) (r1 ++ r2)%list)).
Proof.
  split.
  - intros subject n df0 E.
    destruct (fetch_books_keys _ _ _ E)
      as (books & dy & dr & rows & M & -> & _ & ND & K & F).
    exists books, dy, dr, rows. auto.
  - intros w E. apply main_Shown in E. destruct E as (r1 & r2 & F1 & F2 & ->).
    exists r1, r2. cbn [df init_ui]. repeat split; try assumption.
    + apply drop_seen_NoDup.
    + apply drop_seen_In in H. apply in_app_or in H.
      destruct H as [H | H];
        [destruct (fetch_books_keys _ _ _ F1)
           as (b1 & dy & dr & rows & _ & R & _ & _ & K & _)
        | destruct (fetch_books_keys _ _ _ F2)
           as (b1 & dy & dr & rows & _ & R & _ & _ & K & _)];
        injection R as <-; apply K; assumption.
    + eapply drop_seen_In; eassumption.
    + intros k. apply drop_seen_find. intros [].
Qed.

Lemma no_duplicate_titles_witness :
  fetch_books (always [counted "T1" 7; counted "T1" 9;
                       {| volumeInfo := None |}]) "Fiction" 40
    = Ok (Frame [{| Title := "T1"; Authors := "Unknown Author";
                    Genre := "Uncategorized";
                    Publication_Year := 0; Ratings := 7 |}]) /\
  exists books dy dr rows,
    mapM book_of_item
      (items_of (always [counted "T1" 7; counted "T1" 9;
                         {| volumeInfo := None |}] "Fiction" 40)) = Ok books /\
    Frame [{| Title := "T1"; Authors := "Unknown Author";
              Genre := "Uncategorized";
              Publication_Year := 0; Ratings := 7 |}] = Frame rows /\
    NoDup (map key rows) /\
    (forall b, In b rows ->
       Title b <> "Unknown Title" /\
       exists r, In r books /\ b = astype_row dy dr r) /\
    (forall k, fst k <> "Unknown Title" ->
       find (has_key k) rows
       = option_map (astype_row dy dr) (find (has_key k) books)).
Proof.
  split; [reflexivity |].
  apply (proj1 (no_duplicate_titles
                  (always [counted "T1" 7; counted "T1" 9;
                           {| volumeInfo := None |}])) "Fiction" 40).
  reflexivity.
Defined.
(** ** An answer without items *)

Lemma fetch_books_no_items service subject n :
  no_items (service subject n) = true ->
  fetch_books service subject n = Raise KeyError.
Proof.
  unfold no_items, fetch_books.
  destruct (service subject n) as [e | data]; [discriminate |].
  destruct (get data []); [reflexivity | discriminate].
Qed.

(** C9.  When the answer to a request carries no item, [fetch_books] raises
    [KeyError] instead of returning a frame; at start-up the handler takes
    only [RuntimeError], so no window is shown, and the start-up ends on
    the uncaught [KeyError] as soon as the fetch before it succeeded. *)
Theorem empty_answer_is_fatal service :
  (forall subject n,
     no_items (service subject n) = true ->
     fetch_books service subject n = Raise KeyError) /\
  (no_items (service "Fiction" 40) = true ->
   main service = Uncaught KeyError) /\
  (no_items (service "History" 40) = true ->
   (forall w, main service <> Shown w) /\
   (forall df, fetch_books service "Fiction" 40 = Ok df ->
               main service = Uncaught KeyError)).
Proof.
  split; [| split].
  - intros subject n. apply fetch_books_no_items.
  - intros E. unfold main. rewrite (fetch_books_no_items _ _ _ E). reflexivity.
  - intros E. split.
    + intros w S. apply main_Shown in S.
      destruct S as (r1 & r2 & _ & F2 & _).
      rewrite (fetch_books_no_items _ _ _ E) in F2. discriminate.
    + intros df0 F1. unfold main.
      rewrite F1, (fetch_books_no_items _ _ _ E). reflexivity.
Qed.

Lemma empty_answer_is_fatal_witness :
  no_items (empty_for "History" [counted "T1" 7] "History" 40) = true /\
  (forall w, main (empty_for "History" [counted "T1" 7]) <> Shown w) /\
  (forall df,
     fetch_books (empty_for "History" [counted "T1" 7]) "Fiction" 40 = Ok df ->
     main (empty_for "History" [counted "T1" 7]) = Uncaught KeyError).
Proof.
  split; [reflexivity |].
  apply (proj2 (proj2 (empty_answer_is_fatal
                         (empty_for "History" [counted "T1" 7])))).
  reflexivity.
Defined.

(** ** The two slots *)

Lemma filter_keeps_all {A} (p : A -> bool) (l : list A) :
  filter p l = l <-> forall x, In x l -> p x = true.
Proof.
  split.
  - intros E x I. rewrite <- E in I. apply filter_In in I. apply I.
  - induction l as [| a l IH]; intros H; simpl; [reflexivity |].
    rewrite (H a (or_introl eq_refl)). f_equal.
    apply IH. intros x I. apply H. right. assumption.
Qed.

(** C3 (as amended).  The filter with the empty genre, minimum year 0 and
    minimum ratings 0 returns all the rows, in their order, on a Dataset
    whose years and ratings counts are not negative, and on no other
    Dataset. *)
Theorem identity_filter rows :
  (non_negative rows ->
   apply_filter_rows EmptyString 0 0 rows = Ok rows /\
   suggest_random_rows EmptyString 0 0 rows = Ok rows) /\
  (apply_filter_rows EmptyString 0 0 rows = Ok rows -> non_negative rows).
Proof.
  assert (K : filter (fun b => (0 <=? Publication_Year b) && (0 <=? Ratings b))
                     rows = rows <-> non_negative rows).
  { rewrite filter_keeps_all. unfold non_negative.
    split; intros H b I; specialize (H b I).
    - apply andb_true_iff in H. rewrite !Z.leb_le in H. exact H.
    - apply andb_true_iff. rewrite !Z.leb_le. exact H. }
  unfold apply_filter_rows, suggest_random_rows. cbn [PyStr.is_empty bind].
  split.
  - intros N. apply K in N. rewrite N. auto.
  - intros E. apply K. congruence.
Qed.

Lemma identity_filter_witness :
  non_negative [t1; t2] /\
  apply_filter_rows EmptyString 0 0 [t1; t2] = Ok [t1; t2] /\
  suggest_random_rows EmptyString 0 0 [t1; t2] = Ok [t1; t2].
Proof.
  assert (N : non_negative [t1; t2]).
  { intros b [<- | [<- | []]]; simpl; lia. }
  split; [exact N | apply (proj1 (identity_filter [t1; t2]) N)].
Defined.

(** C3 (counterexample).  The Dataset built at start-up from an item with
    the ratings count -5 holds one row; the filter with the empty genre,
    minimum year 0 and minimum ratings 0 returns none. *)
Lemma identity_filter_drops_a_row :
  main (always [counted "T1" (-5)]) =
  Shown (init_ui [{| Title := "T1"; Authors := "Unknown Author";
                     Genre := "Uncategorized";
                     Publication_Year := 0; Ratings := -5 |}]) /\
  apply_filter_rows EmptyString 0 0
    [{| Title := "T1"; Authors := "Unknown Author"; Genre := "Uncategorized";
        Publication_Year := 0; Ratings := -5 |}] = Ok [].
Proof. split; reflexivity. Qed.

Lemma sample1_In rnd first others : In (sample1 rnd first others) (first :: others).
Proof.
  unfold sample1. apply nth_In. cbn [List.length].
  apply Nat.mod_upper_bound. discriminate.
Qed.

(** C6.  [suggest_random] computes the rows [apply_filter] computes from the
    same genre and minimums; when there is at least one, the book it shows
    is one of them, whatever the draw; when there is none, it returns with
    the message box "No Books" and shows no book. *)
Theorem suggest_random_picks_a_filtered_row :
  (forall genre min_year min_ratings rows,
     suggest_random_rows genre min_year min_ratings rows =
     apply_filter_rows genre min_year min_ratings rows) /\
  (forall rnd w min_year min_ratings rows,
     int_or_zero (PyStr.strip (input_year w)) = Ok min_year ->
     int_or_zero (PyStr.strip (input_ratings w)) = Ok min_ratings ->
     apply_filter_rows (combo_genre w) min_year min_ratings (df w) = Ok rows ->
     (rows = [] ->
      suggest_random rnd w =
      returns w [Information "No Books" "No books match the criteria."]) /\
     (rows <> [] ->
      exists book, In book rows /\
        suggest_random rnd w = returns (setText w (details book)) [])).
Proof.
  split; [reflexivity |].
  intros rnd w min_year min_ratings rows Y R F.
  change (suggest_random_rows (combo_genre w) min_year min_ratings (df w)
          = Ok rows) in F.
  unfold suggest_random. rewrite Y, R. cbn [bind]. rewrite F.
  split.
  - intros ->. reflexivity.
  - intros N. destruct rows as [| first others]; [congruence |].
    exists (sample1 rnd first others). split; [apply sample1_In | reflexivity].
Qed.

Lemma suggest_random_picks_a_filtered_row_witness :
  apply_filter_rows (combo_genre (init_ui [t1; t2])) 0 0 (df (init_ui [t1; t2]))
    = Ok [t1] /\
  exists book, In book [t1] /\
    suggest_random 5 (init_ui [t1; t2]) =
    returns (setText (init_ui [t1; t2]) (details book)) [].
Proof.
  split; [reflexivity |].
  apply (proj2 (proj2 suggest_random_picks_a_filtered_row
                  5%nat (init_ui [t1; t2]) 0 0 [t1]
                  eq_refl eq_refl eq_refl)).
  discriminate.
Defined.

(** C7.  Neither slot changes the frame the window holds, however it ends;
    a run that opens a message box or lets an exception out changes nothing
    of the window. *)
Theorem slots_leave_the_frame w :
  df (window (apply_filter w)) = df w /\
  (forall rnd, df (window (suggest_random rnd w)) = df w) /\
  (dialogs (apply_filter w) <> [] \/ status (apply_filter w) <> Ok tt ->
   window (apply_filter w) = w) /\
  (forall rnd,
     dialogs (suggest_random rnd w) <> [] \/
     status (suggest_random rnd w) <> Ok tt ->
     window (suggest_random rnd w) = w).
Proof.
  repeat split.
  - unfold apply_filter.
    destruct (int_or_zero (PyStr.strip (input_year w))) as [y | [] |];
      try reflexivity.
    destruct (int_or_zero (PyStr.strip (input_ratings w))) as [r | [] |];
      try reflexivity.
    destruct (apply_filter_rows _ _ _ _) as [[| b l] | |]; reflexivity.
  - intros rnd. unfold suggest_random.
    destruct (int_or_zero (PyStr.strip (input_year w))) as [y | [] |];
      try reflexivity.
    destruct (int_or_zero (PyStr.strip (input_ratings w))) as [r | [] |];
      try reflexivity.
    cbn [bind].
    destruct (suggest_random_rows _ _ _ _) as [[| b l] | |]; reflexivity.
  - unfold apply_filter.
    destruct (int_or_zero (PyStr.strip (input_year w))) as [y | [] |];
      try reflexivity.
    destruct (int_or_zero (PyStr.strip (input_ratings w))) as [r | [] |];
      try reflexivity.
    destruct (apply_filter_rows _ _ _ _) as [[| b l] | |]; try reflexivity;
      simpl; intros [H | H]; congruence.
  - intros rnd. unfold suggest_random.
    destruct (int_or_zero (PyStr.strip (input_year w))) as [y | [] |];
      try reflexivity.
    destruct (int_or_zero (PyStr.strip (input_ratings w))) as [r | [] |];
      try reflexivity.
    cbn [bind].
    destruct (suggest_random_rows _ _ _ _) as [[| b l] | |]; try reflexivity;
      simpl; intros [H | H]; congruence.
Qed.

(** ** Empty inputs *)

Lemma strip_blank text : blank text = true -> PyStr.strip text = EmptyString.
Proof.
  unfold blank, PyStr.strip. intros B.
  assert (L : PyStr.lstrip text = EmptyString).
  { induction text as [| c s IH]; simpl in *; [reflexivity |].
    apply andb_true_iff in B. destruct B as [B1 B2].
    rewrite B1. apply IH; assumption. }
  rewrite L. reflexivity.
Qed.

Lemma int_or_zero_blank text :
  blank text = true -> int_or_zero (PyStr.strip text) = Ok 0.
Proof. intros B. rewrite (strip_blank _ B). reflexivity. Qed.

Lemma outcome_apply_filter_year w t :
  int_or_zero (PyStr.strip (input_year w)) = int_or_zero (PyStr.strip t) ->
  outcome (apply_filter w) = outcome (apply_filter (setYear w t)).
Proof.
  intros E. unfold apply_filter. cbn [input_year input_ratings combo_genre df setYear].
  rewrite E.
  destruct (int_or_zero (PyStr.strip t)) as [y | [] |]; try reflexivity.
  destruct (int_or_zero (PyStr.strip (input_ratings w))) as [r | [] |];
    try reflexivity.
  destruct (apply_filter_rows _ _ _ _) as [[| b l] | |]; reflexivity.
Qed.

Lemma outcome_apply_filter_ratings w t :
  int_or_zero (PyStr.strip (input_ratings w)) = int_or_zero (PyStr.strip t) ->
  outcome (apply_filter w) = outcome (apply_filter (setRatings w t)).
Proof.
  intros E. unfold apply_filter.
  cbn [input_year input_ratings combo_genre df setRatings].
  rewrite E.
  destruct (int_or_zero (PyStr.strip (input_year w))) as [y | [] |];
    try reflexivity.
  destruct (int_or_zero (PyStr.strip t)) as [r | [] |]; try reflexivity.
  destruct (apply_filter_rows _ _ _ _) as [[| b l] | |]; reflexivity.
Qed.

Lemma outcome_suggest_random_year rnd w t :
  int_or_zero (PyStr.strip (input_year w)) = int_or_zero (PyStr.strip t) ->
  outcome (suggest_random rnd w) = outcome (suggest_random rnd (setYear w t)).
Proof.
  intros E. unfold suggest_random.
  cbn [input_year input_ratings combo_genre df setYear].
  rewrite E.
  destruct (int_or_zero (PyStr.strip t)) as [y | [] |]; try reflexivity.
  destruct (int_or_zero (PyStr.strip (input_ratings w))) as [r | [] |];
    try reflexivity.
  cbn [bind].
  destruct (suggest_random_rows _ _ _ _) as [[| b l] | |]; reflexivity.
Qed.

Lemma outcome_suggest_random_ratings rnd w t :
  int_or_zero (PyStr.strip (input_ratings w)) = int_or_zero (PyStr.strip t) ->
  outcome (suggest_random rnd w) = outcome (suggest_random rnd (setRatings w t)).
Proof.
  intros E. unfold suggest_random.
  cbn [input_year input_ratings combo_genre df setRatings].
  rewrite E.
  destruct (int_or_zero (PyStr.strip (input_year w))) as [y | [] |];
    try reflexivity.
  destruct (int_or_zero (PyStr.strip t)) as [r | [] |]; try reflexivity.
  cbn [bind].
  destruct (suggest_random_rows _ _ _ _) as [[| b l] | |]; reflexivity.
Qed.

Lemma no_warning_when_read w rnd y r :
  int_or_zero (PyStr.strip (input_year w)) = Ok y ->
  int_or_zero (PyStr.strip (input_ratings w)) = Ok r ->
  existsb is_warning (dialogs (apply_filter w)) = false /\
  existsb is_warning (dialogs (suggest_random rnd w)) = false.
Proof.
  intros Y R. unfold apply_filter, suggest_random. rewrite Y, R. cbn [bind].
  change (suggest_random_rows (combo_genre w) y r (df w))
    with (apply_filter_rows (combo_genre w) y r (df w)).
  destruct (apply_filter_rows _ _ _ _) as [[| b l] | |]; split; reflexivity.
Qed.

(** A minimum that is not positive leaves out no row of a Dataset whose
    numbers are not negative. *)
Lemma filter_ext_on {A} (p q : A -> bool) (l : list A) :
  (forall x, In x l -> p x = q x) -> filter p l = filter q l.
Proof.
  induction l as [| a l IH]; intros H; simpl; [reflexivity |].
  rewrite (H a (or_introl eq_refl)), IH; [reflexivity |].
  intros x I. apply H. right. assumption.
Qed.

Lemma str_contains_In g rows kept b :
  str_contains g rows = Ok kept -> In b kept -> In b rows.
Proof.
  unfold str_contains. destruct (Re.compile g) as [r | |]; cbn [bind];
    try discriminate.
  intros E I. injection E as <-. apply filter_In in I. apply I.
Qed.

Lemma min_year_below_zero g m r rows :
  (forall b, In b rows -> 0 <= Publication_Year b) -> m <= 0 ->
  apply_filter_rows g 0 r rows = apply_filter_rows g m r rows.
Proof.
  intros P M. unfold apply_filter_rows.
  assert (K : forall kept, (forall b, In b kept -> In b rows) ->
            filter (fun b => (0 <=? Publication_Year b) && (r <=? Ratings b))
                   kept
            = filter (fun b => (m <=? Publication_Year b) && (r <=? Ratings b))
                     kept).
  { intros kept S. apply filter_ext_on. intros b I. f_equal.
    specialize (P b (S b I)).
    transitivity true; [| symmetry]; apply Z.leb_le; lia. }
  destruct (PyStr.is_empty g); cbn [bind].
  - rewrite K by auto. reflexivity.
  - destruct (str_contains g rows) as [kept | |] eqn:C; cbn [bind];
      try reflexivity.
    rewrite K; [reflexivity |]. intros b I. eapply str_contains_In; eassumption.
Qed.

Lemma min_ratings_below_zero g y m rows :
  (forall b, In b rows -> 0 <= Ratings b) -> m <= 0 ->
  apply_filter_rows g y 0 rows = apply_filter_rows g y m rows.
Proof.
  intros P M. unfold apply_filter_rows.
  assert (K : forall kept, (forall b, In b kept -> In b rows) ->
            filter (fun b => (y <=? Publication_Year b) && (0 <=? Ratings b))
                   kept
            = filter (fun b => (y <=? Publication_Year b) && (m <=? Ratings b))
                     kept).
  { intros kept S. apply filter_ext_on. intros b I. f_equal.
    specialize (P b (S b I)).
    transitivity true; [| symmetry]; apply Z.leb_le; lia. }
  destruct (PyStr.is_empty g); cbn [bind].
  - rewrite K by auto. reflexivity.
  - destruct (str_contains g rows) as [kept | |] eqn:C; cbn [bind];
      try reflexivity.
    rewrite K; [reflexivity |]. intros b I. eapply str_contains_In; eassumption.
Qed.

(** Two minimum years that select the same rows give the same outcome. *)
Lemma outcome_same_rows_year rnd w t y m :
  int_or_zero (PyStr.strip (input_year w)) = Ok y ->
  int_or_zero (PyStr.strip t) = Ok m ->
  (forall r, apply_filter_rows (combo_genre w) y r (df w)
             = apply_filter_rows (combo_genre w) m r (df w)) ->
  outcome (apply_filter w) = outcome (apply_filter (setYear w t)) /\
  outcome (suggest_random rnd w) = outcome (suggest_random rnd (setYear w t)).
Proof.
  intros Y M H. unfold apply_filter, suggest_random.
  cbn [input_year input_ratings combo_genre df setYear].
  rewrite Y, M.
  destruct (int_or_zero (PyStr.strip (input_ratings w))) as [r | [] |];
    try (split; reflexivity).
  cbn [bind].
  change (suggest_random_rows (combo_genre w) y r (df w))
    with (apply_filter_rows (combo_genre w) y r (df w)).
  change (suggest_random_rows (combo_genre w) m r (df w))
    with (apply_filter_rows (combo_genre w) m r (df w)).
  rewrite (H r).
  destruct (apply_filter_rows _ _ _ _) as [[| b l] | |]; split; reflexivity.
Qed.

Lemma outcome_same_rows_ratings rnd w t r m :
  int_or_zero (PyStr.strip (input_ratings w)) = Ok r ->
  int_or_zero (PyStr.strip t) = Ok m ->
  (forall y, apply_filter_rows (combo_genre w) y r (df w)
             = apply_filter_rows (combo_genre w) y m (df w)) ->
  outcome (apply_filter w) = outcome (apply_filter (setRatings w t)) /\
  outcome (suggest_random rnd w)
  = outcome (suggest_random rnd (setRatings w t)).
Proof.
  intros R M H. unfold apply_filter, suggest_random.
  cbn [input_year input_ratings combo_genre df setRatings].
  rewrite R, M.
  destruct (int_or_zero (PyStr.strip (input_year w))) as [y | [] |];
    try (split; reflexivity).
  cbn [bind].
  change (suggest_random_rows (combo_genre w) y r (df w))
    with (apply_filter_rows (combo_genre w) y r (df w)).
  change (suggest_random_rows (combo_genre w) y m (df w))
    with (apply_filter_rows (combo_genre w) y m (df w)).
  rewrite (H y).
  destruct (apply_filter_rows _ _ _ _) as [[| b l] | |]; split; reflexivity.
Qed.

(** C10 (as amended).  A minimum year, or a minimum ratings count, that is
    empty or made of white space is read as 0: both slots end as they do
    when the field holds "0", and with both fields so no slot opens a
    warning.  This is no restriction on the field when no row of the
    Dataset has a negative number there: both slots then end as they do
    with any minimum that is not positive. *)
Theorem blank_input_is_zero w rnd :
  (blank (input_year w) = true ->
   int_or_zero (PyStr.strip (input_year w)) = Ok 0 /\
   outcome (apply_filter w) = outcome (apply_filter (setYear w "0")) /\
   outcome (suggest_random rnd w) =
   outcome (suggest_random rnd (setYear w "0"))) /\
  (blank (input_ratings w) = true ->
   int_or_zero (PyStr.strip (input_ratings w)) = Ok 0 /\
   outcome (apply_filter w) = outcome (apply_filter (setRatings w "0")) /\
   outcome (suggest_random rnd w) =
   outcome (suggest_random rnd (setRatings w "0"))) /\
  (blank (input_year w) = true -> blank (input_ratings w) = true ->
   existsb is_warning (dialogs (apply_filter w)) = false /\
   existsb is_warning (dialogs (suggest_random rnd w)) = false) /\
  (blank (input_year w) = true ->
   (forall b, In b (df w) -> 0 <= Publication_Year b) ->
   forall t m, int_or_zero (PyStr.strip t) = Ok m -> m <= 0 ->
     outcome (apply_filter w) = outcome (apply_filter (setYear w t)) /\
     outcome (suggest_random rnd w) =
     outcome (suggest_random rnd (setYear w t))) /\
  (blank (input_ratings w) = true ->
   (forall b, In b (df w) -> 0 <= Ratings b) ->
   forall t m, int_or_zero (PyStr.strip t) = Ok m -> m <= 0 ->
     outcome (apply_filter w) = outcome (apply_filter (setRatings w t)) /\
     outcome (suggest_random rnd w) =
     outcome (suggest_random rnd (setRatings w t))).
Proof.
  split; [| split; [| split; [| split]]].
  - intros B. pose proof (int_or_zero_blank _ B) as Z0.
    split; [exact Z0 |]. split.
    + apply outcome_apply_filter_year. rewrite Z0. reflexivity.
    + apply outcome_suggest_random_year. rewrite Z0. reflexivity.
  - intros B. pose proof (int_or_zero_blank _ B) as Z0.
    split; [exact Z0 |]. split.
    + apply outcome_apply_filter_ratings. rewrite Z0. reflexivity.
    + apply outcome_suggest_random_ratings. rewrite Z0. reflexivity.
  - intros By Br. eapply no_warning_when_read; apply int_or_zero_blank;
      assumption.
  - intros B P t m T M.
    eapply outcome_same_rows_year;
      [apply int_or_zero_blank; assumption | exact T |].
    intros r. apply min_year_below_zero; assumption.
  - intros B P t m T M.
    eapply outcome_same_rows_ratings;
      [apply int_or_zero_blank; assumption | exact T |].
    intros y. apply min_ratings_below_zero; assumption.
Qed.

Lemma blank_input_is_zero_witness :
  (blank (input_year (setYear (init_ui [t1; t2]) "  ")) = true /\
   int_or_zero (PyStr.strip (input_year (setYear (init_ui [t1; t2]) "  ")))
     = Ok 0 /\
   outcome (apply_filter (setYear (init_ui [t1; t2]) "  ")) =
   outcome (apply_filter (setYear (setYear (init_ui [t1; t2]) "  ") "0")) /\
   outcome (suggest_random 3 (setYear (init_ui [t1; t2]) "  ")) =
   outcome (suggest_random 3 (setYear (setYear (init_ui [t1; t2]) "  ") "0")))
  /\
  (blank (input_ratings (init_ui [t1; t2])) = true /\
   (forall b, In b (df (init_ui [t1; t2])) -> 0 <= Ratings b) /\
   int_or_zero (PyStr.strip "-3") = Ok (-3) /\
   outcome (apply_filter (init_ui [t1; t2])) =
   outcome (apply_filter (setRatings (init_ui [t1; t2]) "-3")) /\
   outcome (suggest_random 3 (init_ui [t1; t2])) =
   outcome (suggest_random 3 (setRatings (init_ui [t1; t2]) "-3"))).
Proof.
  split.
  - split; [reflexivity |].
    apply (proj1 (blank_input_is_zero (setYear (init_ui [t1; t2]) "  ") 3)).
    reflexivity.
  - assert (P : forall b, In b (df (init_ui [t1; t2])) -> 0 <= Ratings b).
    { intros b [<- | [<- | []]]; simpl; lia. }
    split; [reflexivity |]. split; [exact P |]. split; [reflexivity |].
    apply (proj2 (proj2 (proj2 (proj2
             (blank_input_is_zero (init_ui [t1; t2]) 3))))
             eq_refl P "-3" (-3) eq_refl).
    lia.
Defined.

(** C10 (counterexample).  The Dataset built at start-up from an item with
    the ratings count -5 holds one row.  With the ratings field left empty
    neither slot finds it; with the minimum -5 both do. *)
Lemma blank_input_restricts :
  main (always [counted "T1" (-5)]) =
  Shown (init_ui [{| Title := "T1"; Authors := "Unknown Author";
                     Genre := "Uncategorized";
                     Publication_Year := 0; Ratings := -5 |}]) /\
  blank (input_ratings
           (init_ui [{| Title := "T1"; Authors := "Unknown Author";
                        Genre := "Uncategorized";
                        Publication_Year := 0; Ratings := -5 |}])) = true /\
  outcome (apply_filter
             (init_ui [{| Title := "T1"; Authors := "Unknown Author";
                          Genre := "Uncategorized";
                          Publication_Year := 0; Ratings := -5 |}]))
  = ("No books found with these filters.", [], Ok tt) /\
  outcome (apply_filter
             (setRatings
                (init_ui [{| Title := "T1"; Authors := "Unknown Author";
                             Genre := "Uncategorized";
                             Publication_Year := 0; Ratings := -5 |}])
                "-5"))
  = ("T1 by Unknown Author", [], Ok tt) /\
  dialogs (suggest_random 0
             (init_ui [{| Title := "T1"; Authors := "Unknown Author";
                          Genre := "Uncategorized";
                          Publication_Year := 0; Ratings := -5 |}]))
  = [Information "No Books" "No books match the criteria."] /\
  dialogs (suggest_random 0
             (setRatings
                (init_ui [{| Title := "T1"; Authors := "Unknown Author";
                             Genre := "Uncategorized";
                             Publication_Year := 0; Ratings := -5 |}])
                "-5"))
  = [].
Proof. repeat split. Qed.

(** ** The genre list *)

Lemma ltb_lt a b : (a <? b)%string = true <-> String_as_OT.lt a b.
Proof.
  unfold String.ltb. rewrite <- String_as_OT.cmp_lt. unfold String_as_OT.cmp.
  destruct (String.compare a b); split; congruence.
Qed.

Lemma leb_lt_or_eq a b :
  (a <=? b)%string = true <-> a = b \/ String_as_OT.lt a b.
Proof.
  unfold String.leb. rewrite <- String_as_OT.cmp_lt. unfold String_as_OT.cmp.
  destruct (String.compare a b) eqn:C.
  - apply String.compare_eq_iff in C. tauto.
  - tauto.
  - split; [discriminate |]. intros [-> | L]; [| discriminate].
    assert (E : String.compare b b = Eq) by (apply String_as_OT.cmp_eq; reflexivity).
    congruence.
Qed.

Lemma leb_trans a b c :
  (a <=? b)%string = true -> (b <=? c)%string = true -> (a <=? c)%string = true.
Proof.
  rewrite !leb_lt_or_eq. intros [-> | L1] [-> | L2]; auto.
  right. eapply String_as_OT.lt_trans; eassumption.
Qed.

Lemma insert_sorted_perm x l : Permutation (insert_sorted x l) (x :: l).
Proof.
  induction l as [| y l IH]; simpl; [reflexivity |].
  destruct (x <=? y)%string; [reflexivity |].
  rewrite IH. apply perm_swap.
Qed.

Lemma sorted_perm l : Permutation (sorted l) l.
Proof.
  induction l as [| x l IH]; simpl; [reflexivity |].
  rewrite insert_sorted_perm, IH. reflexivity.
Qed.

Lemma insert_sorted_ascending x l :
  StronglySorted (fun a b => (a <=? b)%string = true) l ->
  StronglySorted (fun a b => (a <=? b)%string = true) (insert_sorted x l).
Proof.
  induction l as [| y l IH]; simpl; intros S.
  - constructor; constructor.
  - inversion S as [| y' l' Sl Fy]; subst.
    destruct (x <=? y)%string eqn:C.
    + constructor; [assumption |]. constructor; [assumption |].
      revert Fy. apply Forall_impl. intros z. apply leb_trans. assumption.
    + constructor; [apply IH; assumption |].
      eapply Permutation_Forall; [symmetry; apply insert_sorted_perm |].
      constructor; [| assumption].
      destruct (String.leb_total x y) as [T | T]; congruence.
Qed.

Lemma sorted_ascending l :
  StronglySorted (fun a b => (a <=? b)%string = true) (sorted l).
Proof.
  induction l as [| x l IH]; simpl; [constructor |].
  apply insert_sorted_ascending. assumption.
Qed.

Lemma ascending_NoDup_strict l :
  StronglySorted (fun a b => (a <=? b)%string = true) l -> NoDup l ->
  StronglySorted before l.
Proof.
  induction 1 as [| x l S IH F]; intros N; [constructor |].
  inversion N as [| x' l' Nx Nl]; subst.
  constructor; [apply IH; assumption |].
  rewrite Forall_forall in *. intros y I. specialize (F y I).
  apply leb_lt_or_eq in F. destruct F as [-> | L]; [contradiction |].
  apply ltb_lt. assumption.
Qed.

(** The first segment is the text up to the first comma followed by a
    space. *)
Lemma split_comma_space_first_spec s :
  let seg := PyStr.split_comma_space_first s in
  (forall pre post, seg <> (pre ++ ", " ++ post)%string) /\
  exists rest, s = (seg ++ rest)%string /\
               (rest = EmptyString \/ prefix ", " rest = true).
Proof.
  induction s as [| c s IH]; simpl.
  - split.
    + intros [| p pre] post; simpl; discriminate.
    + exists EmptyString. auto.
  - destruct IH as [IH1 (rest & IH2 & IH3)].
    destruct (Ascii.eqb c "," && prefix " " s) eqn:C.
    + split.
      * intros [| p pre] post; simpl; discriminate.
      * exists (String c s). split; [reflexivity |]. right.
        apply andb_true_iff in C. destruct C as [C1 C2].
        apply Ascii.eqb_eq in C1. subst c. simpl. exact C2.
    + split.
      * intros [| p pre] post E; simpl in E.
        -- injection E as E1 E2. subst c.
           assert (P : prefix " " s = true).
           { rewrite IH2, E2. simpl. destruct (post ++ rest)%string; reflexivity. }
           rewrite P in C. discriminate.
        -- injection E as E1 E2. apply (IH1 pre post). assumption.
      * exists rest. split; [simpl; congruence | assumption].
Qed.

(** The first segment of labels joined by a comma and a space is the first
    label, when that label has no comma followed by a space. *)
Lemma prefix_comma_space rest :
  prefix ", " rest = true -> exists r, rest = String "," (String " " r).
Proof.
  destruct rest as [| c rest]; cbn [prefix]; [discriminate |].
  destruct (ascii_dec "," c) as [<- | ]; [| discriminate].
  destruct rest as [| d rest]; cbn [prefix]; [discriminate |].
  destruct (ascii_dec " " d) as [<- | ]; [| discriminate].
  eauto.
Qed.

Lemma split_comma_space_first_app label : forall rest,
  (forall pre post, label <> (pre ++ ", " ++ post)%string) ->
  rest = EmptyString \/ prefix ", " rest = true ->
  PyStr.split_comma_space_first (label ++ rest) = label.
Proof.
  induction label as [| a label IH]; intros rest N R.
  - destruct R as [-> | R]; [reflexivity |].
    apply prefix_comma_space in R. destruct R as (r & ->).
    destruct r; reflexivity.
  - cbn [append PyStr.split_comma_space_first].
    assert (C : Ascii.eqb a "," && prefix " " (label ++ rest) = false).
    { apply andb_false_iff.
      destruct (Ascii.eqb a ",") eqn:A; [right | left; reflexivity].
      apply Ascii.eqb_eq in A. subst a.
      destruct label as [| b label].
      - destruct R as [-> | R]; [reflexivity |].
        apply prefix_comma_space in R. destruct R as (r & ->). reflexivity.
      - cbn [append prefix].
        destruct (ascii_dec " " b) as [<- | ]; [| reflexivity].
        exfalso. apply (N EmptyString label). reflexivity. }
    rewrite C. f_equal. apply IH; [| assumption].
    intros pre post E. apply (N (String a pre) post). rewrite E. reflexivity.
Qed.

Lemma first_label label labels :
  (forall pre post, label <> (pre ++ ", " ++ post)%string) ->
  PyStr.split_comma_space_first (PyStr.join ", " (label :: labels)) = label.
Proof.
  intros N. destruct labels as [| l labels].
  - simpl. rewrite <- (@split_comma_space_first_app label EmptyString N) at 2;
      [| left; reflexivity].
    f_equal. clear. induction label; simpl; congruence.
  - change (PyStr.join ", " (label :: l :: labels))
      with (label ++ ", " ++ PyStr.join ", " (l :: labels))%string.
    apply split_comma_space_first_app; [assumption |]. right.
    generalize (PyStr.join ", " (l :: labels)). intros x.
    destruct x; reflexivity.
Qed.

(** C8.  The genre list, which fills the selector, holds exactly the first
    segments of the genre fields of the rows, each once, in strictly
    ascending order.  The first segment of a field is its text up to the
    first comma followed by a space: the first of the labels the field was
    joined from, when that label has no comma followed by a space. *)
Theorem genres_sorted_first_segments rows :
  StronglySorted before (genres rows) /\
  (forall g, In g (genres rows) <->
             exists b, In b rows /\
                       g = PyStr.split_comma_space_first (Genre b)) /\
  combo_items (init_ui rows) = genres rows /\
  (forall field,
     (forall pre post,
        PyStr.split_comma_space_first field <> (pre ++ ", " ++ post)%string) /\
     exists rest,
       field = (PyStr.split_comma_space_first field ++ rest)%string /\
       (rest = EmptyString \/ prefix ", " rest = true)) /\
  (forall label labels,
     (forall pre post, label <> (pre ++ ", " ++ post)%string) ->
     PyStr.split_comma_space_first (PyStr.join ", " (label :: labels)) = label).
Proof.
  unfold genres. split; [| split; [| split; [| split]]].
  - apply ascending_NoDup_strict; [apply sorted_ascending |].
    eapply Permutation_NoDup; [symmetry; apply sorted_perm |].
    apply NoDup_nodup.
  - intros g. split.
    + intros I. apply (Permutation_in _ (sorted_perm _)) in I.
      apply nodup_In, in_map_iff in I. destruct I as (b & E & I). eauto.
    + intros (b & I & ->). apply (Permutation_in _ (Permutation_sym (sorted_perm _))).
      apply nodup_In, in_map_iff. eauto.
  - reflexivity.
  - intros field. apply split_comma_space_first_spec.
  - apply first_label.
Qed.

(** ** The scenarios of the specification *)

Example scenario_merge_and_filter :
  drop_duplicates (Frame [t1; t2; t1]) = Frame [t1; t2] /\
  apply_filter_rows "fiction" 2000 1 [t1; t2] = Ok [t1] /\
  apply_filter_rows EmptyString 2020 0 [t1; t2] = Ok [].
Proof. repeat split. Qed.

Example scenario_defaults :
  book_of_item {| volumeInfo := Some {| title := Some "T1"; authors := None;
                                        publishedDate := Some "2015-03-04";
                                        categories := None;
                                        ratingsCount := None |} |}
  = Ok {| Title := "T1"; Authors := "Unknown Author";
          Genre := "Uncategorized"; Publication_Year := PyInt 2015;
          Ratings := PyInt 0 |}.
Proof. reflexivity. Qed.

Example scenario_int :
  PyStr.int " +1_000 " = Ok 1000 /\ PyStr.int "-7" = Ok (-7) /\
  PyStr.int "12a" = Raise ValueError /\ PyStr.int "1__0" = Raise ValueError.
Proof. repeat split. Qed.

Example scenario_patterns :
  apply_filter_rows "a.c" 0 0 [t1] = Ok [] /\
  apply_filter_rows "fic(tion|tive)" 0 0 [t1; t2] = Ok [t1] /\
  apply_filter_rows "(" 0 0 [t1] = Raise ReError /\
  apply_filter_rows "[a-z]" 0 0 [t1] = Beyond.
Proof. repeat split. Qed.

Example scenario_request_failed :
  main (fun _ _ => RequestException "timed out") =
  Exit1 (Critical "API Error" "API request failed: timed out").
Proof. reflexivity. Qed.

(** * Further properties *)

(** ** The filter, for any genre *)

Lemma subseq_refl {A} (l : list A) : subseq l l.
Proof. induction l; constructor; assumption. Qed.

Lemma subseq_filter {A} (p : A -> bool) (l : list A) : subseq (filter p l) l.
Proof.
  induction l as [| a l IH]; simpl; [constructor |].
  destruct (p a); constructor; assumption.
Qed.

Lemma subseq_trans {A} (l1 l2 l3 : list A) :
  subseq l1 l2 -> subseq l2 l3 -> subseq l1 l3.
Proof.
  intros S12 S23. revert l1 S12.
  induction S23 as [| a l2 l3 S IH | a l2 l3 S IH]; intros l1 S12.
  - assumption.
  - constructor. apply IH. assumption.
  - inversion S12; subst.
    + constructor. apply IH. assumption.
    + apply sub_keep. apply IH. assumption.
Qed.

Lemma subseq_In {A} (l1 l2 : list A) x : subseq l1 l2 -> In x l1 -> In x l2.
Proof.
  induction 1 as [| a l1 l2 S IH | a l1 l2 S IH]; simpl; intros I.
  - assumption.
  - right. apply IH. assumption.
  - destruct I as [-> | I]; [left; reflexivity | right; apply IH; assumption].
Qed.

(** Whether the filter returns depends on the genre alone; when it does,
    it keeps the rows that pass a test of the genre field and the two
    comparisons. *)
Lemma apply_filter_rows_shape genre :
  (exists keep : Book -> bool,
     forall min_year min_ratings rows,
       apply_filter_rows genre min_year min_ratings rows =
       Ok (filter (fun b => keep b && recent_and_rated min_year min_ratings b)
                  rows)) \/
  (exists bad : result (list Book),
     (forall out, bad <> Ok out) /\
     forall min_year min_ratings rows,
       apply_filter_rows genre min_year min_ratings rows = bad).
Proof.
  unfold apply_filter_rows, str_contains.
  destruct (PyStr.is_empty genre).
  - left. exists (fun _ => true). intros. reflexivity.
  - destruct (Re.compile genre) as [r | e |].
    + left. exists (fun b => Re.search r (Genre b)). intros. cbn [bind].
      rewrite filter_filter. reflexivity.
    + right. exists (Raise e). split; [discriminate | reflexivity].
    + right. exists Beyond. split; [discriminate | reflexivity].
Qed.

Lemma filter_idem {A} (p : A -> bool) (l : list A) :
  filter p (filter p l) = filter p l.
Proof.
  rewrite filter_filter. apply filter_ext. intros a. destruct (p a); reflexivity.
Qed.

(** X1.  Whatever the genre, a pattern too, the rows the filter returns are
    rows of the Dataset in their order, and each has a year and a ratings
    count at least the minimums. *)
Theorem filter_rows_are_in_bounds genre min_year min_ratings rows out :
  apply_filter_rows genre min_year min_ratings rows = Ok out ->
  subseq out rows /\
  (forall b, In b out ->
     In b rows /\ min_year <= Publication_Year b /\ min_ratings <= Ratings b) /\
  suggest_random_rows genre min_year min_ratings rows = Ok out.
Proof.
  intros E. split; [| split; [| exact E]].
  - destruct (apply_filter_rows_shape genre) as [(keep & K) | (bad & N & K)].
    + rewrite K in E. injection E as <-. apply subseq_filter.
    + rewrite K in E. subst bad. exfalso. eapply N. reflexivity.
  - intros b I.
    destruct (apply_filter_rows_shape genre) as [(keep & K) | (bad & N & K)].
    + rewrite K in E. injection E as <-. apply filter_In in I.
      destruct I as [I P]. split; [assumption |].
      apply andb_true_iff in P. destruct P as [_ P].
      unfold recent_and_rated in P. apply andb_true_iff in P.
      rewrite !Z.leb_le in P. exact P.
    + rewrite K in E. subst bad. exfalso. eapply N. reflexivity.
Qed.

Lemma filter_rows_are_in_bounds_witness :
  apply_filter_rows "fic(tion|tive)" 2000 1 [t1; t2] = Ok [t1] /\
  subseq [t1] [t1; t2] /\
  (forall b, In b [t1] ->
     In b [t1; t2] /\ 2000 <= Publication_Year b /\ 1 <= Ratings b) /\
  suggest_random_rows "fic(tion|tive)" 2000 1 [t1; t2] = Ok [t1].
Proof.
  split; [reflexivity |].
  apply (@filter_rows_are_in_bounds "fic(tion|tive)" 2000 1 [t1; t2] [t1]).
  reflexivity.
Defined.

(** X2.  Filtering the result of the filter again, with the same genre and
    minimums, returns it unchanged. *)
Theorem filter_twice genre min_year min_ratings rows out :
  apply_filter_rows genre min_year min_ratings rows = Ok out ->
  apply_filter_rows genre min_year min_ratings out = Ok out.
Proof.
  intros E.
  destruct (apply_filter_rows_shape genre) as [(keep & K) | (bad & N & K)].
  - rewrite K in E. injection E as <-. rewrite K, filter_idem. reflexivity.
  - rewrite K in E. subst bad. exfalso. eapply N. reflexivity.
Qed.

Lemma filter_twice_witness :
  apply_filter_rows "fiction" 2000 1 [t1; t2] = Ok [t1] /\
  apply_filter_rows "fiction" 2000 1 [t1] = Ok [t1].
Proof.
  split; [reflexivity |].
  apply (@filter_twice "fiction" 2000 1 [t1; t2] [t1]). reflexivity.
Defined.

(** X3.  Filtering a result again with the same genre and other minimums
    is filtering the Dataset once with the larger of each pair of
    minimums. *)
Theorem filter_again genre y1 r1 y2 r2 rows out :
  apply_filter_rows genre y1 r1 rows = Ok out ->
  apply_filter_rows genre y2 r2 out =
  apply_filter_rows genre (Z.max y1 y2) (Z.max r1 r2) rows.
Proof.
  intros E.
  destruct (apply_filter_rows_shape genre) as [(keep & K) | (bad & N & K)].
  - rewrite K in E. injection E as <-. rewrite !K, filter_filter.
    f_equal. apply filter_ext. intros b. unfold recent_and_rated.
    destruct (keep b); simpl; [| reflexivity].
    apply eq_iff_eq_true. rewrite !andb_true_iff, !Z.leb_le. lia.
  - rewrite K in E. subst bad. exfalso. eapply N. reflexivity.
Qed.

Lemma filter_again_witness :
  apply_filter_rows EmptyString 1980 0 [t1; t2] = Ok [t1; t2] /\
  apply_filter_rows EmptyString 2000 1 [t1; t2] =
  apply_filter_rows EmptyString (Z.max 1980 2000) (Z.max 0 1) [t1; t2].
Proof.
  split; [reflexivity |].
  apply (@filter_again EmptyString 1980 0 2000 1 [t1; t2] [t1; t2]).
  reflexivity.
Defined.

(** ** Genres without special characters *)

Lemma list_ascii_app s1 s2 :
  list_ascii_of_string (s1 ++ s2) =
  (list_ascii_of_string s1 ++ list_ascii_of_string s2)%list.
Proof. induction s1 as [| c s1 IH]; simpl; [| rewrite IH]; reflexivity. Qed.

Lemma iprefix_app l rest : iprefix l (l ++ rest)%list = true.
Proof.
  induction l as [| c l IH]; simpl; [reflexivity |].
  rewrite same_letter_refl, IH. reflexivity.
Qed.

Lemma icontains_start g rest : icontains g (g ++ rest) = true.
Proof.
  unfold icontains. rewrite list_ascii_app.
  destruct (list_ascii_of_string g ++ list_ascii_of_string rest)%list eqn:E;
    simpl; rewrite <- E, iprefix_app; reflexivity.
Qed.

Lemma genres_In rows g :
  In g (genres rows) <->
  exists b, In b rows /\ g = PyStr.split_comma_space_first (Genre b).
Proof.
  unfold genres. split.
  - intros I. apply (Permutation_in _ (sorted_perm _)) in I.
    apply nodup_In, in_map_iff in I. destruct I as (b & E & I). eauto.
  - intros (b & I & ->).
    apply (Permutation_in _ (Permutation_sym (sorted_perm _))).
    apply nodup_In, in_map_iff. eauto.
Qed.

(** X4.  The genre the selector offers for a book, when it has no special
    character, finds that book: the filter returns, and the book is in the
    result as soon as its year and ratings count reach the minimums. *)
Theorem selector_genre_finds_its_book rows b min_year min_ratings :
  In b rows ->
  plain (list_ascii_of_string (PyStr.split_comma_space_first (Genre b))) = true ->
  min_year <= Publication_Year b ->
  min_ratings <= Ratings b ->
  In (PyStr.split_comma_space_first (Genre b)) (combo_items (init_ui rows)) /\
  exists out,
    apply_filter_rows (PyStr.split_comma_space_first (Genre b))
                      min_year min_ratings rows = Ok out /\
    In b out.
Proof.
  intros I P Y R. split.
  - cbn [combo_items init_ui]. apply genres_In. eauto.
  - eexists. split; [apply apply_filter_rows_plain; assumption |].
    apply filter_In. split; [assumption |]. unfold passes.
    apply Z.leb_le in Y, R. rewrite Y, R, !andb_true_r.
    apply orb_true_iff. right.
    destruct (split_comma_space_first_spec (Genre b)) as [_ (rest & E & _)].
    rewrite E at 2. apply icontains_start.
Qed.

Lemma selector_genre_finds_its_book_witness :
  In t2 [t1; t2] /\
  In (PyStr.split_comma_space_first (Genre t2)) (combo_items (init_ui [t1; t2])) /\
  exists out,
    apply_filter_rows (PyStr.split_comma_space_first (Genre t2))
                      1990 0 [t1; t2] = Ok out /\
    In t2 out.
Proof.
  assert (I : In t2 [t1; t2]) by (right; left; reflexivity).
  split; [exact I |].
  apply (@selector_genre_finds_its_book [t1; t2] t2 1990 0 I);
    [reflexivity | simpl; lia | simpl; lia].
Defined.

Lemma iprefix_fold g g' : forall hay,
  map PyStr.tolower g = map PyStr.tolower g' ->
  iprefix g hay = iprefix g' hay.
Proof.
  revert g'. induction g as [| p g IH]; intros [| p' g'] hay E;
    try discriminate; [reflexivity |].
  simpl in E. injection E as E1 E2.
  destruct hay as [| c hay]; simpl; [reflexivity |].
  unfold Re.same_letter. rewrite E1, (IH g' hay E2). reflexivity.
Qed.

Lemma icontains_fold g g' field :
  map PyStr.tolower (list_ascii_of_string g) =
  map PyStr.tolower (list_ascii_of_string g') ->
  icontains g field = icontains g' field.
Proof.
  intros E. unfold icontains.
  induction (list_ascii_of_string field) as [| c hay IH]; simpl;
    rewrite (iprefix_fold _ _ _ E); [reflexivity | rewrite IH; reflexivity].
Qed.

(** X5.  Two genres without special characters that differ only in the
    case of their letters select the same rows. *)
Theorem genre_case_is_ignored g g' min_year min_ratings rows :
  plain (list_ascii_of_string g) = true ->
  plain (list_ascii_of_string g') = true ->
  map PyStr.tolower (list_ascii_of_string g) =
  map PyStr.tolower (list_ascii_of_string g') ->
  apply_filter_rows g min_year min_ratings rows =
  apply_filter_rows g' min_year min_ratings rows.
Proof.
  intros P P' E. rewrite !apply_filter_rows_plain by assumption.
  f_equal. apply filter_ext. intros b. unfold passes.
  rewrite (icontains_fold _ _ _ E).
  assert (K : PyStr.is_empty g = PyStr.is_empty g').
  { destruct g, g'; simpl in *; try reflexivity; discriminate. }
  rewrite K. reflexivity.
Qed.

Lemma genre_case_is_ignored_witness :
  apply_filter_rows "FICTION" 2000 1 [t1; t2] =
  apply_filter_rows "fiction" 2000 1 [t1; t2].
Proof.
  apply (@genre_case_is_ignored "FICTION" "fiction" 2000 1 [t1; t2]);
    reflexivity.
Defined.

(** ** What a fetch keeps *)

Lemma subseq_drop_seen {X} (rows : list (Row X)) :
  forall seen, subseq (drop_seen seen rows) rows.
Proof.
  induction rows as [| a rows IH]; intros seen; simpl; [constructor |].
  destruct (existsb (key_eqb (key a)) seen); constructor; apply IH.
Qed.

Lemma find_has_key_In {X} k (rows : list (Row X)) b :
  In b rows -> key b = k -> exists b', find (has_key k) rows = Some b'.
Proof.
  induction rows as [| a rows IH]; intros I E; [destruct I |].
  simpl. destruct (has_key k a) eqn:H; [eauto |].
  destruct I as [-> | I]; [| apply IH; assumption].
  apply has_key_eq in E. congruence.
Qed.

Lemma subseq_map {A B} (f : A -> B) l1 l2 :
  subseq l1 l2 -> subseq (map f l1) (map f l2).
Proof. induction 1; simpl; constructor; assumption. Qed.

(** X6.  The rows of a fetched frame are normalized items in the order of
    the items, their numbers cast by the cleaning, and no titled item is
    lost: every item whose title is not "Unknown Title" has a row with its
    title and authors. *)
Theorem fetch_keeps_order_and_titles service subject n rows :
  fetch_books service subject n = Ok (Frame rows) ->
  exists books dy dr,
    mapM book_of_item (items_of (service subject n)) = Ok books /\
    subseq rows (map (astype_row dy dr) books) /\
    forall item, In item (items_of (service subject n)) ->
      exists b, book_of_item item = Ok b /\
        (Title b <> "Unknown Title" ->
         exists row, In row rows /\ key row = key b).
Proof.
  intros E.
  destruct (fetch_books_keys _ _ _ E)
    as (books & dy & dr & rows' & M & R & -> & _ & _ & F).
  injection R as ->. exists books, dy, dr. split; [assumption |]. split.
  - apply subseq_map. unfold kept_rows.
    eapply subseq_trans; [apply subseq_filter | apply subseq_drop_seen].
  - intros item I. pose proof (mapM_Ok _ _ M) as F2.
    destruct (@Forall2_In_l _ _ _ _ _ _ F2 I) as (b & Ib & B).
    exists b. split; [assumption |]. intros T.
    destruct (@find_has_key_In _ (key b) books b Ib eq_refl) as (b' & Fb).
    specialize (F (key b) T). rewrite Fb in F. cbn [option_map] in F.
    apply find_some in F. destruct F as [Ir Hr].
    exists (astype_row dy dr b'). split; [assumption |].
    apply (has_key_eq (key b) (astype_row dy dr b')). assumption.
Qed.

Lemma fetch_keeps_order_and_titles_witness :
  fetch_books (always [counted "T1" 7; counted "T1" 9]) "Fiction" 40
    = Ok (Frame [{| Title := "T1"; Authors := "Unknown Author";
                    Genre := "Uncategorized";
                    Publication_Year := 0; Ratings := 7 |}]) /\
  exists books dy dr,
    mapM book_of_item
      (items_of (always [counted "T1" 7; counted "T1" 9] "Fiction" 40))
      = Ok books /\
    subseq [{| Title := "T1"; Authors := "Unknown Author";
               Genre := "Uncategorized";
               Publication_Year := 0; Ratings := 7 |}]
           (map (astype_row dy dr) books) /\
    forall item,
      In item (items_of (always [counted "T1" 7; counted "T1" 9] "Fiction" 40)) ->
      exists b, book_of_item item = Ok b /\
        (Title b <> "Unknown Title" ->
         exists row,
           In row [{| Title := "T1"; Authors := "Unknown Author";
                      Genre := "Uncategorized";
                      Publication_Year := 0; Ratings := 7 |}] /\
           key row = key b).
Proof.
  split; [reflexivity |].
  apply (@fetch_keeps_order_and_titles
           (always [counted "T1" 7; counted "T1" 9]) "Fiction" 40).
  reflexivity.
Defined.

(** ** A request that fails *)

Lemma fetch_books_failed service subject n e :
  failed (service subject n) e ->
  fetch_books service subject n =
  Raise (RuntimeError ("API request failed: " ++ e)).
Proof. unfold failed, fetch_books. intros ->. reflexivity. Qed.

(** X7.  A failed request makes [fetch_books] raise [RuntimeError] with
    the reason after "API request failed: ".  At start-up the handler then
    asks for the "API Error" box with that text and exits: when the request
    for Fiction fails, and when the request for History fails after the
    fetch for Fiction returned; no window is shown on what Fiction gave. *)
Theorem request_failure_ends_startup service :
  (forall subject n e,
     failed (service subject n) e ->
     fetch_books service subject n =
     Raise (RuntimeError ("API request failed: " ++ e))) /\
  (forall e,
     failed (service "Fiction" 40) e ->
     main service = Exit1 (Critical "API Error" ("API request failed: " ++ e))) /\
  (forall e df,
     failed (service "History" 40) e ->
     fetch_books service "Fiction" 40 = Ok df ->
     main service = Exit1 (Critical "API Error" ("API request failed: " ++ e))).
Proof.
  split; [| split].
  - intros subject n e. apply fetch_books_failed.
  - intros e F. unfold main. rewrite (fetch_books_failed _ _ _ F). reflexivity.
  - intros e df0 F O. unfold main.
    rewrite O, (fetch_books_failed _ _ _ F). reflexivity.
Qed.

Lemma request_failure_ends_startup_witness :
  failed (failing_for "History" "timed out" [counted "T1" 7] "History" 40)
         "timed out" /\
  fetch_books (failing_for "History" "timed out" [counted "T1" 7]) "Fiction" 40
    = Ok (Frame [{| Title := "T1"; Authors := "Unknown Author";
                    Genre := "Uncategorized";
                    Publication_Year := 0; Ratings := 7 |}]) /\
  main (failing_for "History" "timed out" [counted "T1" 7]) =
  Exit1 (Critical "API Error" ("API request failed: " ++ "timed out")).
Proof.
  split; [reflexivity |]. split; [reflexivity |].
  apply (proj2 (proj2 (request_failure_ends_startup
                         (failing_for "History" "timed out" [counted "T1" 7])))
               "timed out" _ eq_refl eq_refl).
Defined.

(** ** Duplicates across the two fetches *)

Lemma drop_seen_equiv {X} (rows : list (Row X)) : forall s1 s2,
  (forall k, In k s1 <-> In k s2) ->
  drop_seen s1 rows = drop_seen s2 rows.
Proof.
  induction rows as [| a rows IH]; intros s1 s2 E; simpl; [reflexivity |].
  assert (S : existsb (key_eqb (key a)) s1 = existsb (key_eqb (key a)) s2).
  { apply eq_iff_eq_true. rewrite !seen_In. apply E. }
  rewrite S. destruct (existsb (key_eqb (key a)) s2).
  - apply IH. assumption.
  - f_equal. apply IH. intros k. simpl. rewrite E. tauto.
Qed.

Lemma drop_seen_cons_fresh {X} (rows : list (Row X)) : forall seen k,
  ~ In k (map key rows) ->
  drop_seen (k :: seen) rows = drop_seen seen rows.
Proof.
  induction rows as [| a rows IH]; intros seen k N; simpl; [reflexivity |].
  simpl in N.
  assert (S : key_eqb (key a) k = false).
  { destruct (key_eqb (key a) k) eqn:S; [| reflexivity].
    apply key_eqb_eq in S. exfalso. apply N. left. assumption. }
  rewrite S. simpl. destruct (existsb (key_eqb (key a)) seen).
  - apply IH. tauto.
  - f_equal. rewrite <- (IH (key a :: seen) k) by tauto.
    apply drop_seen_equiv. intros x. simpl. tauto.
Qed.

Lemma drop_seen_NoDup_filter {X} (rows : list (Row X)) : forall seen,
  NoDup (map key rows) ->
  drop_seen seen rows =
  filter (fun b => negb (existsb (key_eqb (key b)) seen)) rows.
Proof.
  induction rows as [| a rows IH]; intros seen N; simpl; [reflexivity |].
  inversion N as [| x xs Nx Nl]; subst.
  destruct (existsb (key_eqb (key a)) seen); simpl.
  - apply IH. assumption.
  - f_equal. rewrite drop_seen_cons_fresh by assumption.
    apply IH. assumption.
Qed.

Lemma drop_seen_app {X} (l1 : list (Row X)) : forall seen l2,
  drop_seen seen (l1 ++ l2)%list =
  (drop_seen seen l1 ++ drop_seen (map key l1 ++ seen) l2)%list.
Proof.
  induction l1 as [| a l1 IH]; intros seen l2; [reflexivity |].
  cbn [app drop_seen map].
  destruct (existsb (key_eqb (key a)) seen) eqn:S.
  - rewrite IH. f_equal. apply drop_seen_equiv. intros k.
    cbn [In]. rewrite !in_app_iff. apply seen_In in S. split; [tauto |].
    intros [E | H]; [subst k |]; tauto.
  - cbn [app]. f_equal. rewrite IH. f_equal. apply drop_seen_equiv.
    intros k. cbn [In]. rewrite !in_app_iff. cbn [In]. tauto.
Qed.

Lemma filter_all {A} (p : A -> bool) (l : list A) :
  (forall x, In x l -> p x = true) -> filter p l = l.
Proof. apply filter_keeps_all. Qed.

Lemma drop_seen_NoDup_id {X} (rows : list (Row X)) :
  NoDup (map key rows) -> drop_seen [] rows = rows.
Proof.
  intros N. rewrite drop_seen_NoDup_filter by assumption.
  apply filter_all. reflexivity.
Qed.

Lemma fetch_books_NoDup service subject n rows :
  fetch_books service subject n = Ok (Frame rows) -> NoDup (map key rows).
Proof.
  intros E.
  destruct (fetch_books_keys _ _ _ E) as (books & dy & dr & rows' & _ & R & _ & N & _).
  injection R as ->. exact N.
Qed.

(** X8.  The frame the window is built from is the Fiction rows as
    fetched, followed by the History rows whose title and authors are not
    those of a Fiction row. *)
Theorem merged_frame service w :
  main service = Shown w ->
  exists r1 r2,
    fetch_books service "Fiction" 40 = Ok (Frame r1) /\
    fetch_books service "History" 40 = Ok (Frame r2) /\
    df w = (r1 ++ filter (new_for r1) r2)%list.
Proof.
  intros E. apply main_Shown in E. destruct E as (r1 & r2 & F1 & F2 & ->).
  exists r1, r2. split; [assumption |]. split; [assumption |].
  cbn [df init_ui]. rewrite drop_seen_app.
  rewrite (@drop_seen_NoDup_id _ r1) by (eapply fetch_books_NoDup; eassumption).
  f_equal. rewrite app_nil_r.
  apply drop_seen_NoDup_filter. eapply fetch_books_NoDup; eassumption.
Qed.

Lemma merged_frame_witness :
  main (always [counted "T1" 7; counted "T2" 9]) =
  Shown (init_ui [{| Title := "T1"; Authors := "Unknown Author";
                     Genre := "Uncategorized";
                     Publication_Year := 0; Ratings := 7 |};
                  {| Title := "T2"; Authors := "Unknown Author";
                     Genre := "Uncategorized";
                     Publication_Year := 0; Ratings := 9 |}]) /\
  exists r1 r2,
    fetch_books (always [counted "T1" 7; counted "T2" 9]) "Fiction" 40
      = Ok (Frame r1) /\
    fetch_books (always [counted "T1" 7; counted "T2" 9]) "History" 40
      = Ok (Frame r2) /\
    df (init_ui [{| Title := "T1"; Authors := "Unknown Author";
                    Genre := "Uncategorized";
                    Publication_Year := 0; Ratings := 7 |};
                 {| Title := "T2"; Authors := "Unknown Author";
                    Genre := "Uncategorized";
                    Publication_Year := 0; Ratings := 9 |}])
    = (r1 ++ filter (new_for r1) r2)%list.
Proof.
  split; [reflexivity |].
  apply (@merged_frame (always [counted "T1" 7; counted "T2" 9])).
  reflexivity.
Defined.

(** X9.  Removing duplicates twice is removing them once, and a frame in
    which no two rows have the same title and authors is left as it is. *)
Theorem drop_duplicates_once {X : Type} :
  (forall df : DataFrame X, drop_duplicates (drop_duplicates df) = drop_duplicates df) /\
  (forall rows : list (Row X),
     NoDup (map key rows) -> drop_duplicates (Frame rows) = Frame rows).
Proof.
  split.
  - intros [| rows]; [reflexivity |]. simpl. f_equal.
    apply drop_seen_NoDup_id, drop_seen_NoDup.
  - intros rows N. simpl. f_equal. apply drop_seen_NoDup_id. assumption.
Qed.

Lemma drop_duplicates_once_witness :
  NoDup (map key [t1; t2]) /\ drop_duplicates (Frame [t1; t2]) = Frame [t1; t2].
Proof.
  assert (N : NoDup (map key [t1; t2])).
  { simpl. repeat constructor; simpl; intuition discriminate. }
  split; [exact N | apply (proj2 (@drop_duplicates_once Z) [t1; t2] N)].
Defined.

(** ** Items without a title *)









(** ** Numbers as text *)












(** ** The date and the dash *)

Lemma split1_first_dash y rest :
  has_char (fun c => Ascii.eqb c "-") y = false ->
  PyStr.split1_first "-" (y ++ String "-" rest) = y /\
  PyStr.split1_first "-" y = y.
Proof.
  unfold has_char. induction y as [| c y IH]; simpl; intros H.
  - split; reflexivity.
  - apply orb_false_iff in H. destruct H as [H1 H2].
    rewrite H1. destruct (IH H2) as [E1 E2]. rewrite E1, E2. split; reflexivity.
Qed.

(** X12.  Only the text before the first dash of a date counts: the year
    of a date is the year of that text alone, whatever follows the dash. *)
Theorem year_reads_up_to_the_dash y rest :
  has_char (fun c => Ascii.eqb c "-") y = false ->
  publication_year (y ++ String "-" rest) = publication_year y.
Proof.
  intros H. destruct (split1_first_dash y rest H) as [E1 E2].
  unfold publication_year. rewrite E1, E2.
  destruct y as [| c y]; reflexivity.
Qed.

Lemma year_reads_up_to_the_dash_witness :
  publication_year ("2015" ++ String "-" "03-04") = publication_year "2015".
Proof.
  apply (@year_reads_up_to_the_dash "2015" "03-04"). reflexivity.
Defined.

(** ** Text that is not a number *)

Lemma In_lstrip c s :
  PyStr.isspace c = false ->
  In c (list_ascii_of_string s) ->
  In c (list_ascii_of_string (PyStr.lstrip s)).
Proof.
  intros N. induction s as [| a s IH]; simpl; intros I; [assumption |].
  destruct (PyStr.isspace a) eqn:A; [| exact I].
  destruct I as [-> | I]; [congruence | apply IH; assumption].
Qed.

Lemma In_rstrip c s :
  PyStr.isspace c = false ->
  In c (list_ascii_of_string s) ->
  In c (list_ascii_of_string (PyStr.rstrip s)).
Proof.
  intros N. induction s as [| a s IH]; simpl; intros I; [assumption |].
  destruct I as [-> | I].
  - rewrite N, andb_false_r. left. reflexivity.
  - specialize (IH I).
    destruct (PyStr.rstrip s) as [| b r]; [destruct IH |].
    cbn [PyStr.is_empty andb]. right. exact IH.
Qed.

Lemma In_strip c s :
  PyStr.isspace c = false ->
  In c (list_ascii_of_string s) ->
  In c (list_ascii_of_string (PyStr.strip s)).
Proof. intros N I. apply In_rstrip, In_lstrip; assumption. Qed.

Lemma int_digits_foreign s c : forall acc sep,
  In c (list_ascii_of_string s) ->
  PyStr.isdecimal c = false -> Ascii.eqb c "_" = false ->
  PyStr.int_digits s acc sep = None.
Proof.
  induction s as [| a s IH]; intros acc sep I D U; [destruct I |].
  simpl. destruct I as [-> | I].
  - rewrite D, U. reflexivity.
  - destruct (PyStr.isdecimal a); [apply IH; assumption |].
    destruct (Ascii.eqb a "_"); [| reflexivity].
    destruct sep; [reflexivity | apply IH; assumption].
Qed.

Lemma foreign_spec c :
  foreign c = true ->
  PyStr.isdecimal c = false /\ PyStr.isspace c = false /\
  Ascii.eqb c "_" = false /\ c <> "+"%char /\ c <> "-"%char.
Proof.
  unfold foreign. rewrite !andb_true_iff, !negb_true_iff.
  intros ((((D & S) & U) & P) & M). repeat split; try assumption.
  - intros ->. discriminate.
  - intros ->. discriminate.
Qed.

(** [int] refuses a text with a character that is neither a digit, an
    underscore, a sign nor white space. *)
Lemma int_foreign text :
  has_char foreign text = true -> PyStr.int text = Raise ValueError.
Proof.
  unfold has_char. intros H. apply existsb_exists in H.
  destruct H as (c & I & F). apply foreign_spec in F.
  destruct F as (D & S & U & P & M).
  apply (In_strip _ _ S) in I. unfold PyStr.int.
  destruct (PyStr.strip text) as [| a rest]; [destruct I |].
  assert (B : match String a rest with
              | String "+" t => PyStr.int_digits t 0 true
              | String "-" t => option_map Z.opp (PyStr.int_digits t 0 true)
              | t => PyStr.int_digits t 0 true
              end = None).
  { destruct (Ascii.eqb_spec a "+") as [-> | NP].
    - destruct I as [E | I]; [congruence |].
      apply (int_digits_foreign _ _ _ _ I D U).
    - destruct (Ascii.eqb_spec a "-") as [-> | NM].
      + destruct I as [E | I]; [congruence |].
        rewrite (int_digits_foreign _ _ _ _ I D U). reflexivity.
      + rewrite <- (int_digits_foreign (String a rest) c 0 true I D U).
        destruct a as [[] [] [] [] [] [] [] []]; try reflexivity; congruence. }
  rewrite B. reflexivity.
Qed.

Lemma int_or_zero_foreign text :
  has_char foreign text = true ->
  int_or_zero (PyStr.strip text) = Raise ValueError.
Proof.
  intros H. unfold int_or_zero.
  assert (F : has_char foreign (PyStr.strip text) = true).
  { unfold has_char in *. apply existsb_exists in H.
    destruct H as (c & I & F). apply existsb_exists. exists c.
    split; [| assumption]. apply In_strip; [| assumption].
    apply foreign_spec in F. apply F. }
  destruct (PyStr.strip text) eqn:E; [discriminate |].
  apply int_foreign. assumption.
Qed.

(** X13.  A minimum with a character that is neither a digit, an
    underscore, a sign nor white space (a letter, a decimal point) is
    refused before anything is filtered.  [apply_filter] names the field,
    the year first; [suggest_random] has one message for both.  The slot
    returns and leaves the window as it was. *)
Theorem malformed_minimum_is_refused w rnd :
  (has_char foreign (input_year w) = true ->
   apply_filter w =
     returns w [Warning "Input Error" "Year must be an integer."] /\
   suggest_random rnd w =
     returns w [Warning "Input Error" "Year and Ratings must be integers."]) /\
  (has_char foreign (input_ratings w) = true ->
   forall min_year,
     int_or_zero (PyStr.strip (input_year w)) = Ok min_year ->
     apply_filter w =
       returns w [Warning "Input Error" "Ratings must be an integer."] /\
     suggest_random rnd w =
       returns w [Warning "Input Error" "Year and Ratings must be integers."]).
Proof.
  split.
  - intros H. apply int_or_zero_foreign in H.
    unfold apply_filter, suggest_random. rewrite H. split; reflexivity.
  - intros H min_year Y. apply int_or_zero_foreign in H.
    unfold apply_filter, suggest_random. rewrite Y, H. split; reflexivity.
Qed.

Lemma malformed_minimum_is_refused_witness :
  has_char foreign (input_year (setYear (init_ui [t1; t2]) "20.5")) = true /\
  apply_filter (setYear (init_ui [t1; t2]) "20.5") =
    returns (setYear (init_ui [t1; t2]) "20.5")
            [Warning "Input Error" "Year must be an integer."] /\
  suggest_random 3 (setYear (init_ui [t1; t2]) "20.5") =
    returns (setYear (init_ui [t1; t2]) "20.5")
            [Warning "Input Error" "Year and Ratings must be integers."].
Proof.
  split; [reflexivity |].
  apply (proj1 (malformed_minimum_is_refused
                  (setYear (init_ui [t1; t2]) "20.5") 3)).
  reflexivity.
Defined.

(** ** What the slots write *)

Lemma slot_windows w rnd :
  window (apply_filter w) =
    setText w (text_area (window (apply_filter w))) /\
  window (suggest_random rnd w) =
    setText w (text_area (window (suggest_random rnd w))).
Proof.
  assert (K : w = setText w (text_area w)) by (destruct w; reflexivity).
  split.
  - unfold apply_filter.
    destruct (int_or_zero (PyStr.strip (input_year w))) as [y | [] |];
      try exact K.
    destruct (int_or_zero (PyStr.strip (input_ratings w))) as [r | [] |];
      try exact K.
    destruct (apply_filter_rows _ _ _ _) as [[| b l] | |];
      try exact K; reflexivity.
  - unfold suggest_random.
    destruct (int_or_zero (PyStr.strip (input_year w))) as [y | [] |];
      try exact K.
    destruct (int_or_zero (PyStr.strip (input_ratings w))) as [r | [] |];
      try exact K.
    cbn [bind].
    destruct (suggest_random_rows _ _ _ _) as [[| b l] | |];
      try exact K; reflexivity.
Qed.

(** X14.  A slot writes the text area and nothing else: the entries of the
    selector, the selected genre and the two inputs are as before, however
    the slot ends. *)
Theorem slots_write_the_text_area_only w rnd :
  (combo_items (window (apply_filter w)) = combo_items w /\
   combo_genre (window (apply_filter w)) = combo_genre w /\
   input_year (window (apply_filter w)) = input_year w /\
   input_ratings (window (apply_filter w)) = input_ratings w) /\
  (combo_items (window (suggest_random rnd w)) = combo_items w /\
   combo_genre (window (suggest_random rnd w)) = combo_genre w /\
   input_year (window (suggest_random rnd w)) = input_year w /\
   input_ratings (window (suggest_random rnd w)) = input_ratings w).
Proof.
  destruct (slot_windows w rnd) as [E1 E2].
  split; [rewrite E1 | rewrite E2]; repeat split.
Qed.

(** ** A key that is missing, a list that is empty *)

(** X15.  The placeholders stand for a missing key only.  An item without
    the authors key gets "Unknown Author" and one without the categories
    key "Uncategorized"; an item whose list is present and empty gets the
    empty text.  With the empty text as genre, the entry the selector
    offers for the book is empty, and selecting it filters on the two
    minimums alone. *)
Theorem missing_key_or_empty_list item b :
  book_of_item item = Ok b ->
  (authors (get (volumeInfo item) no_info) = None ->
   Authors b = "Unknown Author") /\
  (authors (get (volumeInfo item) no_info) = Some [] ->
   Authors b = EmptyString) /\
  (categories (get (volumeInfo item) no_info) = None ->
   Genre b = "Uncategorized") /\
  (categories (get (volumeInfo item) no_info) = Some [] ->
   Genre b = EmptyString /\
   (forall dy dr rows,
      In (astype_row dy dr b) rows ->
      In EmptyString (combo_items (init_ui rows))) /\
   (forall min_year min_ratings rows,
      apply_filter_rows (PyStr.split_comma_space_first (Genre b))
                        min_year min_ratings rows =
      Ok (filter (recent_and_rated min_year min_ratings) rows))).
Proof.
  unfold book_of_item. cbv zeta.
  destruct (publication_year _) as [y | |]; cbn [bind]; try discriminate.
  intros E. injection E as <-. cbn [Authors Genre].
  split; [intros H; rewrite H; reflexivity |].
  split; [intros H; rewrite H; reflexivity |].
  split; [intros H; rewrite H; reflexivity |].
  intros H. rewrite H. split; [reflexivity |]. split.
  - intros dy dr rows I. cbn [combo_items init_ui]. apply genres_In.
    eexists. split; [exact I |]. reflexivity.
  - intros. reflexivity.
Qed.

Lemma missing_key_or_empty_list_witness :
  book_of_item (counted "T1" 7) =
    Ok {| Title := "T1"; Authors := "Unknown Author"; Genre := "Uncategorized";
          Publication_Year := PyInt 0; Ratings := PyInt 7 |} /\
  authors (get (volumeInfo (counted "T1" 7)) no_info) = None /\
  Authors {| Title := "T1"; Authors := "Unknown Author";
             Genre := "Uncategorized";
             Publication_Year := PyInt 0; Ratings := PyInt 7 |}
  = "Unknown Author".
Proof.
  split; [reflexivity |]. split; [reflexivity |].
  apply (proj1 (@missing_key_or_empty_list (counted "T1" 7) _ eq_refl)).
  reflexivity.
Defined.
